(** * Book API: the starter kit and the completed service

    A shallow embedding of the library-catalog REST API.

    - [Starter] embeds the code that ships in [starter/]: the five
      placeholder controllers of [controllers/bookControllers.js], the
      router of [routes/bookRouter.js] and the mounting done by [app.js].
    - [Complete] embeds the service that [README.md] builds on top of the
      starter (iterations 1 to 7): the CRUD controllers, [signupUser],
      [loginUser], [generateToken], the [requireAuth] middleware and the
      protected router.

    Express handlers are [(req, res) => ...] procedures with effects on
    the response object and on the document store.  They are embedded in
    a state-and-exception monad [M] whose state carries the process
    ([World]: store contents, clock, signing secret, journal of store
    calls) and the response under construction ([Res]).

    Request bodies are modelled at the shapes the API documents ("Book
    JSON shape", "Signup JSON shape", "Login JSON shape"): every key a
    handler reads is either absent or carries a value of its schema type.
    A body with other keys ([_id], [createdAt], dotted paths, update
    operators) or with [null] under a string key is outside the
    embedding; the statements that depend on it say so.
    The libraries the service calls (jsonwebtoken, bcryptjs, bson, the
    date parser) are the fields of the [Platform] class; what the
    service relies on from them is [PlatformLaws].  [Bench] is a small
    platform that keeps these laws and [Scenario] a library to run the
    service on. *)

From Stdlib Require Import String Ascii ZArith List Bool Lia Sorted Permutation.
Import ListNotations.

Open Scope string_scope.
Open Scope Z_scope.

(* ================================================================== *)
(** ** JavaScript preliminaries *)

(** [s.split(sep)] for a one-character separator: the pieces between the
    separators, the empty string included ([String.prototype.split]). *)
Fixpoint split (sep : ascii) (s : string) : list string :=
  match s with
  | EmptyString => [EmptyString]
  | String c r =>
      if Ascii.eqb c sep then EmptyString :: split sep r
      else match split sep r with
           | h :: t => String c h :: t
           | [] => [String c EmptyString]
           end
  end.

Definition space : ascii := " "%char.

(** Truthiness of a value that is [undefined] or a string: [!x] holds
    for [undefined] and for the empty string. *)
Definition truthy (x : option string) : bool :=
  match x with
  | None => false
  | Some s => negb (String.eqb s "")
  end.

Definition falsy (x : option string) : bool := negb (truthy x).

(* ================================================================== *)
(** ** Data model *)

(** [models/userModel.js]: every path is required; [timestamps: true]. *)
Record User := mkUser {
  u_id : string;
  u_name : string;
  u_email : string;
  u_password : string;
  u_phone_number : string;
  u_gender : string;
  u_date_of_birth : Z;
  u_membership_status : string;
  u_createdAt : Z;
  u_updatedAt : Z
}.

(** The nested [availability] object of [models/bookModel.js]. *)
Record Availability := mkAvailability {
  isAvailable : option bool;
  dueDate : option Z;
  borrower : option string
}.

(** [models/bookModel.js] after step 7b; [timestamps: true] adds
    [createdAt] and [updatedAt] (milliseconds since the epoch). *)
Record Book := mkBook {
  b_id : string;
  title : string;
  author : string;
  isbn : string;
  publisher : string;
  genre : string;
  availability : Availability;
  user_id : string;
  createdAt : Z;
  updatedAt : Z
}.

(** The [availability] object as it arrives in a payload: [dueDate] is
    still text ([null] and an absent key are both [None]). *)
Record AvailabilityPayload := mkAvailabilityPayload {
  p_isAvailable : option bool;
  p_dueDate : option string;
  p_borrower : option string
}.

(** [req.body] after [express.json()], at the documented shapes: the
    keys of the Book, Signup and Login JSON shapes, and [user_id].
    [None] is an absent key ([undefined]).  Mongoose would also honour
    an [_id] or a [createdAt] key on a create and dotted keys or [null]
    on an update; such bodies are not values of this type. *)
Record Body := mkBody {
  (* book keys *)
  p_title : option string;
  p_author : option string;
  p_isbn : option string;
  p_publisher : option string;
  p_genre : option string;
  p_availability : option AvailabilityPayload;
  p_user_id : option string;
  (* user keys *)
  p_name : option string;
  p_email : option string;
  p_password : option string;
  p_phone_number : option string;
  p_gender : option string;
  p_date_of_birth : option string;
  p_membership_status : option string
}.

Definition emptyBody : Body :=
  mkBody None None None None None None None
         None None None None None None None.

(** [{ ...body, user_id }]: the spread copies every key of [body], the
    key written after it wins. *)
Definition spread_with_user_id (b : Body) (uid : string) : Body :=
  mkBody (p_title b) (p_author b) (p_isbn b) (p_publisher b) (p_genre b)
         (p_availability b) (Some uid)
         (p_name b) (p_email b) (p_password b) (p_phone_number b)
         (p_gender b) (p_date_of_birth b) (p_membership_status b).

Inductive Method := GET | POST | PUT | DELETE | PATCH.

(** [req.user]: not set before [requireAuth] runs; afterwards the result
    of [User.findOne({ _id }).select("_id")], which is [null] or an
    object holding [_id]. *)
Inductive ReqUser :=
| UserUnset
| UserResolved (u : option string).

(** The part of an Express request the service reads.  [path] holds the
    segments below the mount point of the router. *)
Record Req := mkReq {
  method : Method;
  path : list string;
  authorization : option string;
  bookId : string;
  body : Body;
  user : ReqUser
}.

Definition with_bookId (req : Req) (id : string) : Req :=
  mkReq (method req) (path req) (authorization req) id (body req) (user req).

Definition with_user (req : Req) (u : option string) : Req :=
  mkReq (method req) (path req) (authorization req) (bookId req) (body req)
        (UserResolved u).

(** What a handler sends: [res.send(text)], [res.json(...)], or
    [res.send()] with no body. *)
Inductive Reply :=
| Text (s : string)
| MessageJson (message : string)
| ErrorJson (error : string)
| BookJson (b : Book)
| BooksJson (bs : list Book)
| AuthJson (email : option string) (token : string)
| NoContent.

(** The response object: [res.status(c)] sets [statusCode] (200 until
    then), [res.json] and [res.send] fill [sent]. *)
Record Res := mkRes {
  statusCode : Z;
  sent : option Reply
}.

Definition freshRes : Res := mkRes 200 None.

(** The calls a handler can make on the document store. *)
Inductive StoreCall :=
| CallBookFind
| CallBookFindById (id : string)
| CallBookSave
| CallBookFindOneAndUpdate (id : string)
| CallBookFindOneAndDelete (id : string)
| CallUserFindOneByEmail (email : option string)
| CallUserFindOneById (id : string)
| CallUserCreate.

(** The process: both collections, [Date.now()], the connection to the
    store, the counters behind [new ObjectId()] and [bcrypt.genSalt],
    [process.env.SECRET], and the journal of store calls made so far
    (newest first). *)
Record World := mkWorld {
  users : list User;
  books : list Book;
  clock : Z;
  connected : bool;
  oidCounter : nat;
  saltCounter : nat;
  SECRET : string;
  journal : list StoreCall
}.

(** Payload of an identity token: [{ _id, iat, exp }], times in seconds. *)
Record Claims := mkClaims {
  claim_id : string;
  iat : Z;
  exp : Z
}.

Record Jwt := mkJwt {
  claims : Claims;
  signature : string
}.

(** Result of an operation that may throw [new Error(message)]. *)
Inductive Outcome (A : Type) :=
| Returned (a : A)
| Thrown (message : string).
Arguments Returned {A} a.
Arguments Thrown {A} message.

(* ================================================================== *)
(** ** The libraries the service calls *)

Class Platform := {
  (** [mongoose.Types.ObjectId.isValid] on a path parameter. *)
  ObjectId_isValid : string -> bool;
  (** The cast of a valid text to an ObjectId, as the store shows it:
      [new ObjectId(text).toHexString()], 24 hexadecimal digits in
      lower case.  Stored identifiers are kept in this form. *)
  ObjectId_hex : string -> string;
  (** [new ObjectId()], from the generator's counter. *)
  ObjectId_fresh : nat -> string;
  (** The Date caster of Mongoose on the text of a date. *)
  Date_parse : string -> option Z;
  (** The HS256 signature of a payload under a key. *)
  hmac : string -> Claims -> string;
  (** The compact serialization of a token and its parser. *)
  jwt_serialize : Jwt -> string;
  jwt_parse : string -> option Jwt;
  (** [bcrypt.genSalt(rounds)], from the generator's counter. *)
  bcrypt_genSalt : nat -> nat -> string;
  (** [bcrypt.hash(password, salt)]. *)
  bcrypt_hash : string -> string -> string;
  (** [bcrypt.compare(password, digest)]. *)
  bcrypt_compare : string -> string -> bool
}.

(** What the service relies on: a token parses back to what was
    serialized, a token and a digest are never the empty string. *)
Class PlatformLaws (P : Platform) : Prop := {
  jwt_parse_serialize : forall j, jwt_parse (jwt_serialize j) = Some j;
  jwt_serialize_nonempty : forall j, jwt_serialize j <> "";
  bcrypt_hash_nonempty : forall password salt, bcrypt_hash password salt <> ""
}.

Section Jsonwebtoken.

Context {P : Platform}.

(** [ms("3d") / 1000]: three days in seconds. *)
Definition three_days : Z := 3 * 24 * 60 * 60.

(** [jwt.sign({ _id }, secret, { expiresIn })]: [iat] is
    [Math.floor(Date.now() / 1000)] and [exp] is [iat + expiresIn]. *)
Definition jwt_sign (_id secret : string) (expiresIn now_ms : Z) : string :=
  let issued := now_ms / 1000 in
  let c := mkClaims _id issued (issued + expiresIn) in
  jwt_serialize (mkJwt c (hmac secret c)).

(** [jwt.verify(token, secret)]: throws when the token is missing, does
    not parse, carries another signature, or when the clock has reached
    [exp]; returns the payload otherwise. *)
Definition jwt_verify (token : option string) (secret : string) (now_ms : Z)
  : Outcome Claims :=
  match token with
  | None => Thrown "jwt must be provided"
  | Some t =>
      if String.eqb t "" then Thrown "jwt must be provided"
      else match jwt_parse t with
           | None => Thrown "jwt malformed"
           | Some j =>
               if String.eqb (signature j) (hmac secret (claims j)) then
                 if exp (claims j) <=? now_ms / 1000
                 then Thrown "jwt expired"
                 else Returned (claims j)
               else Thrown "invalid signature"
           end
  end.

End Jsonwebtoken.

(* ================================================================== *)
(** ** The handler monad *)

Record St := mkSt {
  world : World;
  res : Res
}.

Definition M (A : Type) : Type := St -> Outcome A * St.

Definition ret {A} (a : A) : M A := fun s => (Returned a, s).

Definition bind {A B} (m : M A) (k : A -> M B) : M B :=
  fun s =>
    match m s with
    | (Returned a, s') => k a s'
    | (Thrown e, s') => (Thrown e, s')
    end.

(** [throw new Error(message)]. *)
Definition throw {A} (message : string) : M A := fun s => (Thrown message, s).

(** [try { a = body; rest(a) } catch (error) { handler(error) }] where
    nothing in [rest] throws into the [try]: [rest] is the part of the
    block that hands control over ([next()]). *)
Definition try_then {A B} (m : M A) (rest : A -> M B) (handler : string -> M B)
  : M B :=
  fun s =>
    match m s with
    | (Returned a, s') => rest a s'
    | (Thrown e, s') => handler e s'
    end.

(** [try { body } catch (error) { handler(error.message) }]. *)
Definition try_catch {A} (m : M A) (handler : string -> M A) : M A :=
  try_then m ret handler.

Definition get_world : M World := fun s => (Returned (world s), s).

Definition res_status (c : Z) : M unit :=
  fun s => (Returned tt, mkSt (world s) (mkRes c (sent (res s)))).

Definition res_send (r : Reply) : M unit :=
  fun s => (Returned tt, mkSt (world s) (mkRes (statusCode (res s)) (Some r))).

Definition res_json := res_send.

Declare Scope handler_scope.
Delimit Scope handler_scope with handler.
Notation "x <- m ;; k" := (bind m (fun x => k))
  (at level 61, m at next level, right associativity) : handler_scope.
Notation "m ;;; k" := (bind m (fun _ => k))
  (at level 61, right associativity) : handler_scope.

Open Scope handler_scope.

(** A handler or a middleware's continuation. *)
Definition Handler : Type := Req -> M unit.

(** What [controllers/bookControllers.js] exports. *)
Record Controllers := mkControllers {
  ctl_getAllBooks : Handler;
  ctl_getBookById : Handler;
  ctl_createBook : Handler;
  ctl_updateBook : Handler;
  ctl_deleteBook : Handler
}.

(** Serving one request: the handler runs on a fresh response object;
    the result is the response and the process afterwards. *)
Definition serve (h : M unit) (w : World) : Res * World :=
  let s := snd (h (mkSt w freshRes)) in (res s, world s).

(** Modelled from the spec: [middleware/customMiddleware.js] is not part
    of the sources; "unrecognized routes return a generic unknown
    endpoint 404". *)
Definition unknownEndpoint : M unit :=
  res_status 404 ;;; res_json (ErrorJson "unknown endpoint").

Definition with_path (req : Req) (p : list string) : Req :=
  mkReq (method req) p (authorization req) (bookId req) (body req) (user req).

(* ================================================================== *)
(** ** The document store behind the Mongoose models *)

Definition log_call (c : StoreCall) (w : World) : World :=
  mkWorld (users w) (books w) (clock w) (connected w) (oidCounter w)
          (saltCounter w) (SECRET w) (c :: journal w).

(** One round trip to the store: the call is journalled, fails when the
    connection is down, and runs [op] on the collections otherwise. *)
Definition store_call {A} (c : StoreCall) (op : World -> Outcome A * World)
  : M A :=
  fun s =>
    let w := log_call c (world s) in
    if connected w
    then let (o, w') := op w in (o, mkSt w' (res s))
    else (Thrown "store unavailable", mkSt w (res s)).

Definition set_books (w : World) (bs : list Book) : World :=
  mkWorld (users w) bs (clock w) (connected w) (oidCounter w)
          (saltCounter w) (SECRET w) (journal w).

(** [.sort({ createdAt: -1 })]: newest first; documents with the same
    [createdAt] keep the order of the collection. *)
Fixpoint insert_desc (b : Book) (l : list Book) : list Book :=
  match l with
  | [] => [b]
  | x :: r =>
      if createdAt x <=? createdAt b then b :: l
      else x :: insert_desc b r
  end.

Fixpoint sort_createdAt_desc (l : list Book) : list Book :=
  match l with
  | [] => []
  | b :: r => insert_desc b (sort_createdAt_desc r)
  end.

Definition find_book (id : string) (l : list Book) : option Book :=
  find (fun b => String.eqb (b_id b) id) l.

Definition find_user_by_email (e : string) (l : list User) : option User :=
  find (fun u => String.eqb (u_email u) e) l.

Definition find_user_by_id (id : string) (l : list User) : option User :=
  find (fun u => String.eqb (u_id u) id) l.

(** Removes the first document with this [_id]. *)
Fixpoint remove_book (id : string) (l : list Book) : list Book :=
  match l with
  | [] => []
  | b :: r => if String.eqb (b_id b) id then r else b :: remove_book id r
  end.

(** Rewrites the first document with this [_id]. *)
Fixpoint replace_book (id : string) (b' : Book) (l : list Book) : list Book :=
  match l with
  | [] => []
  | b :: r =>
      if String.eqb (b_id b) id then b' :: r else b :: replace_book id b' r
  end.

Definition or_else {A} (x : option A) (d : A) : A :=
  match x with
  | Some a => a
  | None => d
  end.

(** The [required] validator of a String path: present and not empty. *)
Definition required_string (x : option string) : option string :=
  if truthy x then x else None.

Section Models.

Context {P : Platform}.

(** Casting a payload's [availability] to the schema: [dueDate] goes
    through the Date caster, which takes the empty string for [null]
    and can fail on other text. *)
Definition cast_availability (a : AvailabilityPayload) : option Availability :=
  match p_dueDate a with
  | None => Some (mkAvailability (p_isAvailable a) None (p_borrower a))
  | Some d =>
      if String.eqb d "" then
        Some (mkAvailability (p_isAvailable a) None (p_borrower a))
      else
        match Date_parse d with
        | Some t =>
            Some (mkAvailability (p_isAvailable a) (Some t) (p_borrower a))
        | None => None
        end
  end.

(** Validation of a new Book against [bookSchema]: the five strings,
    [availability.isAvailable] and [user_id] are required, [user_id]
    casts to an ObjectId.  [None] is a ValidationError. *)
Definition Book_validate (id : string) (b : Body) (now : Z) : option Book :=
  match required_string (p_title b), required_string (p_author b),
        required_string (p_isbn b), required_string (p_publisher b),
        required_string (p_genre b), p_availability b, p_user_id b with
  | Some t, Some a, Some i, Some pu, Some g, Some av, Some uid =>
      match cast_availability av with
      | Some av' =>
          match isAvailable av' with
          | Some _ =>
              if ObjectId_isValid uid
              then Some (mkBook id t a i pu g av' uid now now)
              else None
          | None => None
          end
      | None => None
      end
  | _, _, _, _, _, _, _ => None
  end.

(** A document built by [new Book(fields)], not yet saved: it already
    has its [_id]. *)
Record BookDraft := mkBookDraft {
  draft_id : string;
  draft_fields : Body
}.

(** [new Book(fields)]. *)
Definition Book_new (fields : Body) : M BookDraft :=
  fun s =>
    let w := world s in
    (Returned (mkBookDraft (ObjectId_fresh (oidCounter w)) fields),
     mkSt (mkWorld (users w) (books w) (clock w) (connected w)
                   (S (oidCounter w)) (saltCounter w) (SECRET w) (journal w))
          (res s)).

(** [await doc.save()]: validates, then inserts with [createdAt] and
    [updatedAt] stamped, and yields the stored document.  A document
    that fails validation is not sent to the store. *)
Definition Book_save (d : BookDraft) : M Book :=
  w <- get_world ;;
  match Book_validate (draft_id d) (draft_fields d) (clock w) with
  | Some b =>
      store_call CallBookSave (fun w =>
        (Returned b, set_books w (books w ++ [b])))
  | None => throw "Book validation failed"
  end.

(** [await Book.find({}).sort({ createdAt: -1 })]. *)
Definition Book_find_sorted : M (list Book) :=
  store_call CallBookFind (fun w =>
    (Returned (sort_createdAt_desc (books w)), w)).

(** [await Book.findById(id)]: the id is cast to an ObjectId first, and
    the ObjectId is what the store compares. *)
Definition Book_findById (id : string) : M (option Book) :=
  if ObjectId_isValid id then
    store_call (CallBookFindById id) (fun w =>
      (Returned (find_book (ObjectId_hex id) (books w)), w))
  else throw "Cast to ObjectId failed".

(** [await Book.findOneAndDelete({ _id: id })]. *)
Definition Book_findOneAndDelete (id : string) : M (option Book) :=
  if ObjectId_isValid id then
    store_call (CallBookFindOneAndDelete id) (fun w =>
      match find_book (ObjectId_hex id) (books w) with
      | Some b =>
          (Returned (Some b),
           set_books w (remove_book (ObjectId_hex id) (books w)))
      | None => (Returned None, w)
      end)
  else throw "Cast to ObjectId failed".

(** The update document of [findOneAndUpdate] after casting.  Mongoose
    treats top-level keys that are not operators as [$set]: each key the
    payload carries is set, the other paths of the stored document stay.
    A nested [availability] object is set as one value.  Update
    validators are off by default, so [required] is not enforced. *)
Definition cast_update (b : Body) : option (option Availability) :=
  if match p_user_id b with
     | Some uid => ObjectId_isValid uid
     | None => true
     end
  then match p_availability b with
       | None => Some None
       | Some a =>
           match cast_availability a with
           | Some a' => Some (Some a')
           | None => None
           end
       end
  else None.

Definition apply_update (b : Body) (av : option Availability) (now : Z)
  (old : Book) : Book :=
  mkBook (b_id old)
         (or_else (p_title b) (title old))
         (or_else (p_author b) (author old))
         (or_else (p_isbn b) (isbn old))
         (or_else (p_publisher b) (publisher old))
         (or_else (p_genre b) (genre old))
         (or_else av (availability old))
         (or_else (option_map ObjectId_hex (p_user_id b)) (user_id old))
         (createdAt old)
         now.

(** [await Book.findOneAndUpdate({ _id: id }, update,
    { returnDocument: "after" })]: the filter and the update are cast,
    then the store yields the document after the update, or [null] when
    no document has this [_id]. *)
Definition Book_findOneAndUpdate (id : string) (update : Body)
  : M (option Book) :=
  if ObjectId_isValid id then
    match cast_update update with
    | Some av =>
        store_call (CallBookFindOneAndUpdate id) (fun w =>
          match find_book (ObjectId_hex id) (books w) with
          | Some old =>
              let b' := apply_update update av (clock w) old in
              (Returned (Some b'),
               set_books w (replace_book (ObjectId_hex id) b' (books w)))
          | None => (Returned None, w)
          end)
    | None => throw "Cast failed"
    end
  else throw "Cast to ObjectId failed".

(** [await User.findOne({ email })].  A filter on an [undefined] email
    matches no document: every stored user has an email. *)
Definition User_findOne_by_email (email : option string) : M (option User) :=
  store_call (CallUserFindOneByEmail email) (fun w =>
    match email with
    | Some e => (Returned (find_user_by_email e (users w)), w)
    | None => (Returned None, w)
    end).

(** [await User.findOne({ _id }).select("_id")]: [null], or the
    projection of the user on [_id].  The [_id] of a token is the text
    [jwt.sign] wrote for the user's ObjectId, its hexadecimal form, so
    the cast of the filter leaves it as it is. *)
Definition User_findOne_by_id (_id : string) : M (option string) :=
  if ObjectId_isValid _id then
    store_call (CallUserFindOneById _id) (fun w =>
      (Returned (option_map u_id (find_user_by_id _id (users w))), w))
  else throw "Cast to ObjectId failed".

(** Validation of a new User against [userSchema]: every path is
    required, [date_of_birth] casts to a Date. *)
Definition User_validate (id : string) (name email password phone_number
  gender date_of_birth membership_status : option string) (now : Z)
  : option User :=
  match required_string name, required_string email,
        required_string password, required_string phone_number,
        required_string gender, date_of_birth,
        required_string membership_status with
  | Some n, Some e, Some pw, Some ph, Some g, Some d, Some m =>
      match Date_parse d with
      | Some t => Some (mkUser id n e pw ph g t m now now)
      | None => None
      end
  | _, _, _, _, _, _, _ => None
  end.

(** [await User.create({ ... })]: validates under a new [_id], then
    inserts (the unique index on [email] rejects a duplicate), and
    yields the stored document. *)
Definition User_create (name email password phone_number gender
  date_of_birth membership_status : option string) : M User :=
  w <- get_world ;;
  match User_validate (ObjectId_fresh (oidCounter w)) name email password
          phone_number gender date_of_birth membership_status (clock w) with
  | Some u =>
      store_call CallUserCreate (fun w =>
        match find_user_by_email (u_email u) (users w) with
        | Some _ => (Thrown "E11000 duplicate key error", w)
        | None =>
            (Returned u,
             mkWorld (users w ++ [u]) (books w) (clock w) (connected w)
                     (S (oidCounter w)) (saltCounter w) (SECRET w) (journal w))
        end)
  | None => throw "User validation failed"
  end.

(* ------------------------------------------------------------------ *)
(** *** bcryptjs and jsonwebtoken inside a handler *)

(** [await bcrypt.genSalt(rounds)]. *)
Definition genSalt (rounds : nat) : M string :=
  fun s =>
    let w := world s in
    (Returned (bcrypt_genSalt rounds (saltCounter w)),
     mkSt (mkWorld (users w) (books w) (clock w) (connected w) (oidCounter w)
                   (S (saltCounter w)) (SECRET w) (journal w))
          (res s)).

(** [await bcrypt.hash(password, salt)]: bcryptjs throws on an argument
    that is not a string. *)
Definition hash (password : option string) (salt : string) : M string :=
  match password with
  | Some p => ret (bcrypt_hash p salt)
  | None => throw "Illegal arguments: undefined, string"
  end.

(** [await bcrypt.compare(password, digest)]. *)
Definition compare (password : option string) (digest : string) : M bool :=
  match password with
  | Some p => ret (bcrypt_compare p digest)
  | None => throw "Illegal arguments: undefined, string"
  end.

(** [jwt.verify(token, process.env.SECRET)]. *)
Definition verify (token : option string) : M Claims :=
  fun s =>
    match jwt_verify token (SECRET (world s)) (clock (world s)) with
    | Returned c => (Returned c, s)
    | Thrown e => (Thrown e, s)
    end.

End Models.

(* ================================================================== *)
(** ** The starter kit *)

Module Starter.

(** [controllers/bookControllers.js] *)

(** GET /books *)
Definition getAllBooks : Handler :=
  fun req => res_send (Text "getAllBooks").

(** POST /books *)
Definition createBook : Handler :=
  fun req => res_send (Text "createBook").

(** GET /books/:bookId *)
Definition getBookById : Handler :=
  fun req => res_send (Text "getBookById").

(** PUT /books/:bookId *)
Definition updateBook : Handler :=
  fun req => res_send (Text "updateBook").

(** DELETE /books/:bookId *)
Definition deleteBook : Handler :=
  fun req => res_send (Text "deleteBook").

Definition bookControllers : Controllers :=
  mkControllers getAllBooks getBookById createBook updateBook deleteBook.

(** [routes/bookRouter.js]: five routes, tried in the order they are
    registered; a request that matches none goes to [next]. *)
Definition bookRouter (c : Controllers) (req : Req) (next : M unit) : M unit :=
  match method req, path req with
  | GET, [] => ctl_getAllBooks c req
  | POST, [] => ctl_createBook c req
  | GET, [id] => ctl_getBookById c (with_bookId req id)
  | PUT, [id] => ctl_updateBook c (with_bookId req id)
  | DELETE, [id] => ctl_deleteBook c (with_bookId req id)
  | _, _ => next
  end.

(** [app.js]: the book router is mounted on [/api/books]; whatever it
    does not answer reaches [unknownEndpoint]. *)
Definition app (c : Controllers) (req : Req) : M unit :=
  match path req with
  | "api" :: "books" :: rest => bookRouter c (with_path req rest) unknownEndpoint
  | _ => unknownEndpoint
  end.

End Starter.

(* ================================================================== *)
(** ** The completed service (README, iterations 1 to 7) *)

Module Complete.

Section Controllers.

Context {P : Platform}.

(** *** [controllers/bookControllers.js] *)

(** GET /books (iteration 2) *)
Definition getAllBooks : Handler :=
  fun req =>
    try_catch
      (books <- Book_find_sorted ;;
       res_status 200 ;;; res_json (BooksJson books))
      (fun error =>
         res_status 500 ;;; res_json (MessageJson "Failed to retrieve books")).

(** [req.user._id]: a TypeError when [req.user] is [undefined] or
    [null]. *)
Definition req_user_id (req : Req) : M string :=
  match user req with
  | UserResolved (Some _id) => ret _id
  | UserResolved None => throw "Cannot read properties of null"
  | UserUnset => throw "Cannot read properties of undefined"
  end.

(** POST /books (step 7c) *)
Definition createBook : Handler :=
  fun req =>
    try_catch
      (user_id <- req_user_id req ;;
       newBook <- Book_new (spread_with_user_id (body req) user_id) ;;
       saved <- Book_save newBook ;;
       res_status 201 ;;; res_json (BookJson saved))
      (fun error =>
         res_status 500 ;;; res_json (ErrorJson "Server Error")).

(** GET /books/:bookId (iteration 4) *)
Definition getBookById : Handler :=
  fun req =>
    let bookId := bookId req in
    if negb (ObjectId_isValid bookId) then
      res_status 400 ;;; res_json (MessageJson "Invalid book ID")
    else
      try_catch
        (book <- Book_findById bookId ;;
         match book with
         | Some b => res_status 200 ;;; res_json (BookJson b)
         | None => res_status 404 ;;; res_json (MessageJson "Book not found")
         end)
        (fun error =>
           res_status 500 ;;; res_json (MessageJson "Failed to retrieve book")).

(** PUT /books/:bookId (iteration 5) *)
Definition updateBook : Handler :=
  fun req =>
    let bookId := bookId req in
    if negb (ObjectId_isValid bookId) then
      res_status 400 ;;; res_json (MessageJson "Invalid book ID")
    else
      try_catch
        (updatedBook <- Book_findOneAndUpdate bookId (body req) ;;
         match updatedBook with
         | Some b => res_status 200 ;;; res_json (BookJson b)
         | None => res_status 404 ;;; res_json (MessageJson "Book not found")
         end)
        (fun error =>
           res_status 500 ;;; res_json (MessageJson "Failed to update book")).

(** DELETE /books/:bookId (iteration 3) *)
Definition deleteBook : Handler :=
  fun req =>
    let bookId := bookId req in
    if negb (ObjectId_isValid bookId) then
      res_status 400 ;;; res_json (MessageJson "Invalid book ID")
    else
      try_catch
        (deletedBook <- Book_findOneAndDelete bookId ;;
         match deletedBook with
         | Some _ => res_status 204 ;;; res_send NoContent
         | None => res_status 404 ;;; res_json (MessageJson "Book not found")
         end)
        (fun error =>
           res_status 500 ;;; res_json (MessageJson "Failed to delete book")).

Definition bookControllers : Controllers :=
  mkControllers getAllBooks getBookById createBook updateBook deleteBook.

(** *** [controllers/userControllers.js] (step 6d) *)

(** Generate JWT: [jwt.sign({ _id }, process.env.SECRET,
    { expiresIn: "3d" })]. *)
Definition generateToken (_id : string) : M string :=
  w <- get_world ;;
  ret (jwt_sign _id (SECRET w) three_days (clock w)).

(** POST /api/users/signup.  [User.create] yields a document or throws,
    so the "Invalid user data" branch of the source never runs. *)
Definition signupUser : Handler :=
  fun req =>
    let name := p_name (body req) in
    let email := p_email (body req) in
    let password := p_password (body req) in
    let phone_number := p_phone_number (body req) in
    let gender := p_gender (body req) in
    let date_of_birth := p_date_of_birth (body req) in
    let membership_status := p_membership_status (body req) in
    try_catch
      ((if falsy name || falsy email || falsy password || falsy phone_number
           || falsy gender || falsy date_of_birth || falsy membership_status
        then res_status 400 ;;; throw "Please add all fields"
        else ret tt) ;;;
       (* Check if user exists *)
       userExists <- User_findOne_by_email email ;;
       (match userExists with
        | Some _ => res_status 400 ;;; throw "User already exists"
        | None => ret tt
        end) ;;;
       (* Hash password *)
       salt <- genSalt 10 ;;
       hashedPassword <- hash password salt ;;
       (* Create user *)
       user <- User_create name email (Some hashedPassword) phone_number
                 gender date_of_birth membership_status ;;
       token <- generateToken (u_id user) ;;
       res_status 201 ;;; res_json (AuthJson email token))
      (fun error => res_status 400 ;;; res_json (ErrorJson error)).

(** POST /api/users/login *)
Definition loginUser : Handler :=
  fun req =>
    let email := p_email (body req) in
    let password := p_password (body req) in
    try_catch
      ((* Check for user email *)
       user <- User_findOne_by_email email ;;
       match user with
       | Some u =>
           matches <- compare password (u_password u) ;;
           if (matches : bool) then
             token <- generateToken (u_id u) ;;
             res_status 200 ;;; res_json (AuthJson email token)
           else res_status 400 ;;; throw "Invalid credentials"
       | None => res_status 400 ;;; throw "Invalid credentials"
       end)
      (fun error => res_status 400 ;;; res_json (ErrorJson error)).

(** *** [middleware/requireAuth.js] (step 7a) *)

(** [authorization.split(" ")[1]]. *)
Definition token_of (authorization : string) : option string :=
  nth_error (split space authorization) 1.

(** The handler that [next()] starts is an async function: nothing it
    throws comes back into the [try] of the middleware. *)
Definition requireAuth (req : Req) (next : Handler) : M unit :=
  (* verify user is authenticated *)
  if falsy (authorization req) then
    res_status 401 ;;; res_json (ErrorJson "Authorization token required")
  else
    let token := token_of (or_else (authorization req) "") in
    try_then
      (c <- verify token ;;
       u <- User_findOne_by_id (claim_id c) ;;
       ret (with_user req u))
      next
      (fun error =>
         res_status 401 ;;; res_json (ErrorJson "Request is not authorized")).

(** *** [routes/bookRouter.js] (step 7d) *)

Definition bookRouter (c : Controllers) (req : Req) (next : M unit) : M unit :=
  match method req, path req with
  (* Public routes (no authentication needed) *)
  | GET, [] => ctl_getAllBooks c req
  | GET, [id] => ctl_getBookById c (with_bookId req id)
  | _, _ =>
      (* All routes below this line require authentication *)
      requireAuth req (fun req =>
        match method req, path req with
        (* Protected routes *)
        | POST, [] => ctl_createBook c req
        | PUT, [id] => ctl_updateBook c (with_bookId req id)
        | DELETE, [id] => ctl_deleteBook c (with_bookId req id)
        | _, _ => next
        end)
  end.

(** *** [routes/userRouter.js] (step 6e) *)

Definition userRouter (req : Req) (next : M unit) : M unit :=
  match method req, path req with
  | POST, ["login"] => loginUser req
  | POST, ["signup"] => signupUser req
  | _, _ => next
  end.

(** *** [app.js] (step 6f) *)

Definition app (c : Controllers) (req : Req) : M unit :=
  match path req with
  | "api" :: "books" :: rest => bookRouter c (with_path req rest) unknownEndpoint
  | "api" :: "users" :: rest => userRouter (with_path req rest) unknownEndpoint
  | _ => unknownEndpoint
  end.

End Controllers.

End Complete.

(* ================================================================== *)
(** ** A platform to run the service on

    Small stand-ins for the libraries, enough to execute requests: 24
    hexadecimal digits for ObjectIds, a binary layout for tokens, a
    keyed tag for signatures and a salted tag for password digests. *)

Module Bench.

Definition is_hex (c : ascii) : bool :=
  let n := nat_of_ascii c in
  ((48 <=? n) && (n <=? 57) || (97 <=? n) && (n <=? 102)
   || (65 <=? n) && (n <=? 70))%nat.

Fixpoint all_chars (f : ascii -> bool) (s : string) : bool :=
  match s with
  | EmptyString => true
  | String c r => f c && all_chars f r
  end.

(** A string is an ObjectId when it is 24 hexadecimal digits. *)
Definition isValid (s : string) : bool :=
  Nat.eqb (String.length s) 24 && all_chars is_hex s.

Definition hex_digit (n : nat) : ascii :=
  if (n <? 10)%nat then ascii_of_nat (48 + n) else ascii_of_nat (87 + n).

Fixpoint hex_digits (width n : nat) : string :=
  match width with
  | O => EmptyString
  | S k => hex_digits k (n / 16) ++ String (hex_digit (n mod 16)) EmptyString
  end.

Definition fresh (n : nat) : string := hex_digits 24 n.

(** The digits [A] to [F] in lower case, the other characters as they
    are. *)
Definition lower_hex (c : ascii) : ascii :=
  let n := nat_of_ascii c in
  if ((65 <=? n) && (n <=? 70))%nat then ascii_of_nat (n + 32) else c.

Fixpoint map_chars (f : ascii -> ascii) (s : string) : string :=
  match s with
  | EmptyString => EmptyString
  | String c r => String (f c) (map_chars f r)
  end.

(** The hexadecimal text of an ObjectId given as 24 digits. *)
Definition hex (s : string) : string := map_chars lower_hex s.

Definition is_digit (c : ascii) : bool :=
  let n := nat_of_ascii c in ((48 <=? n) && (n <=? 57))%nat.

Fixpoint decimal (acc : Z) (s : string) : Z :=
  match s with
  | EmptyString => acc
  | String c r => decimal (10 * acc + Z.of_nat (nat_of_ascii c - 48)) r
  end.

(** A date given as a number of milliseconds in decimal. *)
Definition parse_date (s : string) : option Z :=
  if negb (String.eqb s "") && all_chars is_digit s
  then Some (decimal 0 s) else None.

(** Binary layout of numbers: bits, lowest first, closed by a dot. *)
Fixpoint enc_pos (p : positive) : string :=
  match p with
  | xH => "."
  | xO q => String "0"%char (enc_pos q)
  | xI q => String "1"%char (enc_pos q)
  end.

Fixpoint dec_pos (s : string) : option (positive * string) :=
  match s with
  | EmptyString => None
  | String c r =>
      if Ascii.eqb c "."%char then Some (xH, r)
      else if Ascii.eqb c "0"%char then
        match dec_pos r with
        | Some (q, r') => Some (xO q, r')
        | None => None
        end
      else if Ascii.eqb c "1"%char then
        match dec_pos r with
        | Some (q, r') => Some (xI q, r')
        | None => None
        end
      else None
  end.

Definition enc_Z (z : Z) : string :=
  match z with
  | Z0 => "z"
  | Zpos p => String "p"%char (enc_pos p)
  | Zneg p => String "n"%char (enc_pos p)
  end.

Definition dec_Z (s : string) : option (Z * string) :=
  match s with
  | EmptyString => None
  | String c r =>
      if Ascii.eqb c "z"%char then Some (0, r)
      else if Ascii.eqb c "p"%char then
        match dec_pos r with
        | Some (q, r') => Some (Zpos q, r')
        | None => None
        end
      else if Ascii.eqb c "n"%char then
        match dec_pos r with
        | Some (q, r') => Some (Zneg q, r')
        | None => None
        end
      else None
  end.

Fixpoint take (n : nat) (s : string) : option (string * string) :=
  match n with
  | O => Some (EmptyString, s)
  | S k =>
      match s with
      | EmptyString => None
      | String c r =>
          match take k r with
          | Some (a, r') => Some (String c a, r')
          | None => None
          end
      end
  end.

(** A token: [iat], [exp], the length of [_id], [_id], the signature. *)
Definition serialize (j : Jwt) : string :=
  enc_Z (iat (claims j)) ++ enc_Z (exp (claims j))
  ++ enc_Z (Z.of_nat (String.length (claim_id (claims j))))
  ++ claim_id (claims j) ++ signature j.

Definition parse (s : string) : option Jwt :=
  match dec_Z s with
  | Some (i, s1) =>
      match dec_Z s1 with
      | Some (e, s2) =>
          match dec_Z s2 with
          | Some (n, s3) =>
              match take (Z.to_nat n) s3 with
              | Some (id, sig) => Some (mkJwt (mkClaims id i e) sig)
              | None => None
              end
          | None => None
          end
      | None => None
      end
  | None => None
  end.

(** The tag of a payload under a key. *)
Definition tag (secret : string) (c : Claims) : string :=
  secret ++ "/" ++ claim_id c ++ "/" ++ enc_Z (exp c).

Definition genSalt (rounds n : nat) : string := hex_digits 4 n.

(** A digest: a marker, the salt, the password. *)
Definition digest (password salt : string) : string :=
  String "$"%char (salt ++ password).

(** Hashes the password again under the salt found in the digest. *)
Definition check (password d : string) : bool :=
  String.eqb (digest password (substring 1 4 d)) d.

#[export] Instance platform : Platform := {|
  ObjectId_isValid := isValid;
  ObjectId_hex := hex;
  ObjectId_fresh := fresh;
  Date_parse := parse_date;
  hmac := tag;
  jwt_serialize := serialize;
  jwt_parse := parse;
  bcrypt_genSalt := genSalt;
  bcrypt_hash := digest;
  bcrypt_compare := check
|}.

End Bench.

(* ================================================================== *)
(** ** Vocabulary of the properties *)

Section Vocabulary.

Context {P : Platform}.

(** Newest first: [a] may stand before [b]. *)
Definition newer_or_same (a b : Book) : Prop := createdAt b <= createdAt a.

Definition created_at (t : Z) (b : Book) : bool := createdAt b =? t.

Definition absent_or_empty (x : option string) : Prop :=
  x = None \/ x = Some "".

(** The seven fields [signupUser] requires. *)
Definition required_fields (b : Body) : list (option string) :=
  [p_name b; p_email b; p_password b; p_phone_number b; p_gender b;
   p_date_of_birth b; p_membership_status b].

(** The text of a field that is present. *)
Definition the (x : option string) : string := or_else x "".

(** A payload whose [user_id] key is replaced by [o]. *)
Definition with_owner (b : Body) (o : option string) : Body :=
  mkBody (p_title b) (p_author b) (p_isbn b) (p_publisher b) (p_genre b)
         (p_availability b) o
         (p_name b) (p_email b) (p_password b) (p_phone_number b)
         (p_gender b) (p_date_of_birth b) (p_membership_status b).

Definition with_body (req : Req) (b : Body) : Req :=
  mkReq (method req) (path req) (authorization req) (bookId req) b (user req).

(** The reading of "full-document replace": every field of the record
    after the update carries the value the payload gives it. *)
Definition replaced_by_payload (p : Body) (b : Book) : Prop :=
  p_title p = Some (title b)
  /\ p_author p = Some (author b)
  /\ p_isbn p = Some (isbn b)
  /\ p_publisher p = Some (publisher b)
  /\ p_genre p = Some (genre b)
  /\ exists a, p_availability p = Some a
              /\ cast_availability a = Some (availability b).

(** The three routes registered after [router.use(requireAuth)], as the
    client names them. *)
Definition protected_request (req : Req) : Prop :=
  (method req = POST /\ path req = ["api"; "books"])
  \/ (method req = PUT /\ exists id, path req = ["api"; "books"; id])
  \/ (method req = DELETE /\ exists id, path req = ["api"; "books"; id]).

(** The reading of "carries a bearer credential": the header reads
    [Bearer <token>] with a token that is not empty. *)
Definition carries_bearer_credential (h : option string) : bool :=
  match h with
  | Some s => prefix "Bearer " s && (7 <? String.length s)%nat
  | None => false
  end.

(** The request with another Authorization header. *)
Definition with_authorization (req : Req) (h : option string) : Req :=
  mkReq (method req) (path req) h (bookId req) (body req) (user req).

(** A word without a space in it. *)
Fixpoint has_no_space (s : string) : bool :=
  match s with
  | EmptyString => true
  | String c r => negb (Ascii.eqb c space) && has_no_space r
  end.

(** The two routes registered before [router.use(requireAuth)], below
    the mount point of the router. *)
Definition public_route (req : Req) : bool :=
  match method req, path req with
  | GET, [] => true
  | GET, [_] => true
  | _, _ => false
  end.

(** The middleware lets the request through with the claims [c]: the
    header holds a token that verifies, the store answers the user
    lookup and the token's [_id] casts to an ObjectId. *)
Definition admitted_with (req : Req) (w : World) (c : Claims) : Prop :=
  exists hdr : string,
    authorization req = Some hdr
    /\ hdr <> ""
    /\ jwt_verify (Complete.token_of hdr) (SECRET w) (clock w) = Returned c
    /\ connected w = true
    /\ ObjectId_isValid (claim_id c) = true.

Definition emails (w : World) : list string := map u_email (users w).

Definition book_ids (w : World) : list string := map b_id (books w).

(** The response was sent, with one of these status codes. *)
Definition answered_with (codes : list Z) (r : Res) : Prop :=
  sent r <> None /\ In (statusCode r) codes.

End Vocabulary.

(* ================================================================== *)
(** ** The service at work

    A small library on the [Bench] platform: one member, three books,
    two of them created in the same millisecond. *)

Module Scenario.

#[local] Existing Instance Bench.platform.

Definition ann_id : string := "00000000000000000000000a".
Definition mallory_id : string := "00000000000000000000000f".

Definition ann : User :=
  mkUser ann_id "Ann" "ann@example.com" (Bench.digest "secret123" "0000")
         "555-123-4567" "Female" 631152000000 "Active" 1000 1000.

Definition on_shelf : Availability := mkAvailability (Some true) None (Some "").

Definition gatsby_id : string := "0000000000000000000000b1".

(** The same ObjectId as a client may spell it. *)
Definition gatsby_id_upper : string := "0000000000000000000000B1".

Definition gatsby : Book :=
  mkBook gatsby_id "The Great Gatsby" "F. Scott Fitzgerald" "978-0743273565"
         "Scribner" "Fiction" on_shelf ann_id 2000 2000.

Definition dune : Book :=
  mkBook "0000000000000000000000b2" "Dune" "Frank Herbert" "978-0441172719"
         "Ace" "Science Fiction" on_shelf ann_id 3000 3000.

Definition emma : Book :=
  mkBook "0000000000000000000000b3" "Emma" "Jane Austen" "978-0141439587"
         "Penguin" "Fiction" on_shelf ann_id 3000 3000.

Definition library : World :=
  mkWorld [ann] [gatsby; dune; emma] 5000 true 7 1 "f9d1e69365fa" [].

(** The same process after Ann's record is gone from the store. *)
Definition orphaned : World :=
  mkWorld [] [gatsby; dune; emma] 5000 true 7 1 "f9d1e69365fa" [].

(** The token Ann got when she logged in. *)
Definition ann_token : string :=
  jwt_sign ann_id (SECRET library) three_days (clock library).

Definition bearer (token : string) : option string :=
  Some ("Bearer " ++ token).

Definition request (m : Method) (p : list string) (a : option string)
  (b : Body) : Req :=
  mkReq m p a "" b UserUnset.

(** The request of a route [/:bookId], as the router hands it over. *)
Definition request_for (m : Method) (id : string) (b : Body) : Req :=
  mkReq m [id] None id b UserUnset.

(** README, "Book JSON shape", sent with somebody else's [user_id]. *)
Definition gatsby_payload : Body :=
  mkBody (Some "The Great Gatsby") (Some "F. Scott Fitzgerald")
         (Some "978-0743273565") (Some "Scribner") (Some "Fiction")
         (Some (mkAvailabilityPayload (Some true) None (Some "")))
         (Some mallory_id)
         None None None None None None None.

Definition title_only : Body :=
  mkBody (Some "Gatsby, revised") None None None None None None
         None None None None None None None.

Definition signup_bob : Body :=
  mkBody None None None None None None None
         (Some "Bob") (Some "bob@example.com") (Some "hunter22")
         (Some "555-000-1111") (Some "Male") (Some "652147200000")
         (Some "Active").

Definition signup_without_phone : Body :=
  mkBody None None None None None None None
         (Some "Bob") (Some "bob@example.com") (Some "hunter22")
         None (Some "Male") (Some "652147200000") (Some "Active").

Definition signup_ann_again : Body :=
  mkBody None None None None None None None
         (Some "Ann B.") (Some "ann@example.com") (Some "other-pass")
         (Some "555-999-0000") (Some "Female") (Some "631152000000")
         (Some "Active").

Definition login (email password : string) : Body :=
  mkBody None None None None None None None
         None (Some email) (Some password) None None None None.

(** A login that sends the email and no [password] key. *)
Definition login_without_password (email : string) : Body :=
  mkBody None None None None None None None
         None (Some email) None None None None None.

(** What Ann's token holds: issued at second 5, good for three days. *)
Definition ann_claims : Claims := mkClaims ann_id 5 259205.

(** The book the store holds after Ann posts [gatsby_payload]. *)
Definition second_gatsby : Book :=
  mkBook "000000000000000000000007" "The Great Gatsby" "F. Scott Fitzgerald"
         "978-0743273565" "Scribner" "Fiction" on_shelf ann_id 5000 5000.

(** Bob's record after his signup. *)
Definition bob : User :=
  mkUser "000000000000000000000007" "Bob" "bob@example.com"
         (Bench.digest "hunter22" "0001") "555-000-1111" "Male"
         652147200000 "Active" 5000 5000.

Definition revised_gatsby : Book :=
  mkBook gatsby_id "Gatsby, revised" "F. Scott Fitzgerald" "978-0743273565"
         "Scribner" "Fiction" on_shelf ann_id 2000 5000.

(** The library while the store cannot be reached. *)
Definition offline : World :=
  mkWorld [ann] [gatsby; dune; emma] 5000 false 7 1 "f9d1e69365fa" [].

(** The library four days after Ann logged in. *)
Definition four_days_later : World :=
  mkWorld [ann] [gatsby; dune; emma] 345605000 true 7 1 "f9d1e69365fa" [].

Definition cleo_id : string := "00000000000000000000000c".

Definition cleo : User :=
  mkUser cleo_id "Cleo" "cleo@example.com" (Bench.digest "pass-cleo" "0002")
         "555-222-3333" "Female" 700000000000 "Active" 1500 1500.

(** The library with a second member; every book is Ann's. *)
Definition reading_room : World :=
  mkWorld [ann; cleo] [gatsby; dune; emma] 5000 true 7 3 "f9d1e69365fa" [].

Definition cleo_token : string :=
  jwt_sign cleo_id (SECRET reading_room) three_days (clock reading_room).

Definition cleo_claims : Claims := mkClaims cleo_id 5 259205.

(** A request as [createBook] gets it once the middleware has put Ann
    in [req.user]. *)
Definition from_ann (b : Body) : Req :=
  mkReq POST [] None "" b (UserResolved (Some ann_id)).

End Scenario.

(* ================================================================== *)
(** ** Properties *)

Arguments Book_validate : simpl never.
Arguments spread_with_user_id : simpl never.
Arguments cast_update : simpl never.
Arguments apply_update : simpl never.
Arguments jwt_verify : simpl never.
Arguments jwt_sign : simpl never.

(** Unfolds the monad of a handler down to its steps. *)
Ltac step_handler :=
  unfold serve, try_catch, try_then, bind, ret, throw, get_world,
    res_status, res_json, res_send, store_call, log_call; simpl.

(* ------------------------------------------------------------------ *)
(** *** Sorting by [createdAt] *)

Lemma insert_desc_perm (b : Book) (l : list Book) :
  Permutation (b :: l) (insert_desc b l).
Proof.
  induction l as [ | x r IH]; simpl.
  - apply Permutation_refl.
  - destruct (createdAt x <=? createdAt b).
    + apply Permutation_refl.
    + eapply perm_trans; [apply perm_swap | apply perm_skip, IH].
Qed.

Lemma sort_createdAt_desc_perm (l : list Book) :
  Permutation l (sort_createdAt_desc l).
Proof.
  induction l as [ | b r IH]; simpl.
  - apply perm_nil.
  - eapply perm_trans; [apply perm_skip, IH | apply insert_desc_perm].
Qed.

Lemma insert_desc_all (Q : Book -> Prop) (b : Book) (l : list Book) :
  Q b -> Forall Q l -> Forall Q (insert_desc b l).
Proof.
  intros Hb Hl.
  eapply Permutation_Forall; [apply insert_desc_perm | ].
  constructor; assumption.
Qed.

Lemma insert_desc_sorted (b : Book) (l : list Book) :
  StronglySorted newer_or_same l ->
  StronglySorted newer_or_same (insert_desc b l).
Proof.
  induction 1 as [ | x r Hr IH Hx]; simpl.
  - constructor; [constructor | constructor].
  - destruct (createdAt x <=? createdAt b) eqn:E.
    + apply Z.leb_le in E. constructor.
      * constructor; assumption.
      * constructor; [exact E | ].
        eapply Forall_impl; [ | exact Hx].
        intros y Hy. unfold newer_or_same in *. lia.
    + apply Z.leb_gt in E. constructor.
      * exact IH.
      * apply insert_desc_all; [ | exact Hx].
        unfold newer_or_same. lia.
Qed.

Lemma sort_createdAt_desc_sorted (l : list Book) :
  StronglySorted newer_or_same (sort_createdAt_desc l).
Proof.
  induction l as [ | b r IH]; simpl.
  - constructor.
  - apply insert_desc_sorted, IH.
Qed.

Lemma insert_desc_ties (t : Z) (b : Book) (l : list Book) :
  filter (created_at t) (insert_desc b l) = filter (created_at t) (b :: l).
Proof.
  induction l as [ | x r IH].
  - reflexivity.
  - cbn [insert_desc]. destruct (createdAt x <=? createdAt b) eqn:E.
    + reflexivity.
    + apply Z.leb_gt in E.
      cbn [filter] in *. rewrite IH.
      unfold created_at.
      destruct (createdAt b =? t) eqn:Eb; [ | reflexivity].
      apply Z.eqb_eq in Eb.
      assert ((createdAt x =? t) = false) as -> by (apply Z.eqb_neq; lia).
      reflexivity.
Qed.

Lemma sort_createdAt_desc_ties (t : Z) (l : list Book) :
  filter (created_at t) (sort_createdAt_desc l) = filter (created_at t) l.
Proof.
  induction l as [ | b r IH].
  - reflexivity.
  - cbn [sort_createdAt_desc]. rewrite insert_desc_ties.
    cbn [filter]. rewrite IH. reflexivity.
Qed.

(* ------------------------------------------------------------------ *)
(** *** The placeholder controllers *)

(** C10.  Each of the five controllers that ship in the starter is a
    constant function: whatever the request (path parameter, body,
    headers) and whatever the process (store contents), it answers with
    the default status and the text naming the handler, and leaves the
    process as it found it, the journal of store calls included: it
    reads and writes nothing in the store. *)
Theorem starter_controllers_are_placeholders :
  forall (req : Req) (w : World),
    serve (Starter.getAllBooks req) w
      = (mkRes 200 (Some (Text "getAllBooks")), w)
    /\ serve (Starter.getBookById req) w
      = (mkRes 200 (Some (Text "getBookById")), w)
    /\ serve (Starter.createBook req) w
      = (mkRes 200 (Some (Text "createBook")), w)
    /\ serve (Starter.updateBook req) w
      = (mkRes 200 (Some (Text "updateBook")), w)
    /\ serve (Starter.deleteBook req) w
      = (mkRes 200 (Some (Text "deleteBook")), w).
Proof.
  intros req w. repeat split.
Qed.

(** The router that ships in the starter puts nothing in front of POST,
    PUT and DELETE: each goes straight to its controller. *)
Lemma starter_router_has_no_middleware (c : Controllers) (req : Req) (next : M unit)
  (id : string) :
  (method req = POST -> path req = [] ->
   Starter.bookRouter c req next = ctl_createBook c req)
  /\ (method req = PUT -> path req = [id] ->
      Starter.bookRouter c req next = ctl_updateBook c (with_bookId req id))
  /\ (method req = DELETE -> path req = [id] ->
      Starter.bookRouter c req next = ctl_deleteBook c (with_bookId req id)).
Proof.
  unfold Starter.bookRouter.
  repeat split; intros Hm Hp; rewrite Hm, Hp; reflexivity.
Qed.

Section Contracts.

Context {P : Platform} {L : PlatformLaws P}.

(* ------------------------------------------------------------------ *)
(** *** Listing *)

Lemma route_books (c : Controllers) (req : Req) (rest : list string) :
  path req = "api" :: "books" :: rest ->
  Complete.app c req = Complete.bookRouter c (with_path req rest) unknownEndpoint.
Proof.
  intro H. unfold Complete.app. rewrite H. reflexivity.
Qed.

Lemma route_signup (c : Controllers) (req : Req) :
  method req = POST ->
  path req = ["api"; "users"; "signup"] ->
  Complete.app c req = Complete.signupUser (with_path req ["signup"]).
Proof.
  intros Hm Hp. unfold Complete.app. rewrite Hp.
  unfold Complete.userRouter. cbn [method path with_path]. rewrite Hm.
  reflexivity.
Qed.

Lemma route_login (c : Controllers) (req : Req) :
  method req = POST ->
  path req = ["api"; "users"; "login"] ->
  Complete.app c req = Complete.loginUser (with_path req ["login"]).
Proof.
  intros Hm Hp. unfold Complete.app. rewrite Hp.
  unfold Complete.userRouter. cbn [method path with_path]. rewrite Hm.
  reflexivity.
Qed.

(** GET /api/books/:bookId is public: the request goes straight to
    [getBookById], with the path segment as [req.params.bookId]. *)
Lemma route_getBookById (req : Req) (id : string) :
  method req = GET ->
  path req = ["api"; "books"; id] ->
  Complete.app Complete.bookControllers req
  = Complete.getBookById (with_bookId (with_path req [id]) id).
Proof.
  intros Hm Hp. rewrite (route_books _ _ _ Hp). unfold Complete.bookRouter.
  cbn [method path with_path]. rewrite Hm. reflexivity.
Qed.

(** C2.  Whatever the collection holds, when the store answers, GET
    /api/books responds 200 with every stored book, newest
    [createdAt] first; books with the same [createdAt] come in the
    order of the collection, so the answer is a function of the
    store's state. *)
Theorem getAllBooks_newest_first :
  forall (req : Req) (w : World),
    method req = GET ->
    path req = ["api"; "books"] ->
    connected w = true ->
    let listed := sort_createdAt_desc (books w) in
    serve (Complete.app Complete.bookControllers req) w
      = (mkRes 200 (Some (BooksJson listed)), log_call CallBookFind w)
    /\ Permutation (books w) listed
    /\ StronglySorted newer_or_same listed
    /\ forall t, filter (created_at t) listed = filter (created_at t) (books w).
Proof.
  intros req w Hm Hp Hup listed. repeat split.
  - rewrite (route_books _ _ _ Hp). unfold Complete.bookRouter.
    cbn [method path with_path]. rewrite Hm.
    cbn [ctl_getAllBooks Complete.bookControllers].
    unfold Complete.getAllBooks, Book_find_sorted. step_handler.
    rewrite Hup. reflexivity.
  - apply sort_createdAt_desc_perm.
  - apply sort_createdAt_desc_sorted.
  - intro t. apply sort_createdAt_desc_ties.
Qed.

(* ------------------------------------------------------------------ *)
(** *** Identifier checks *)

(** The three controllers that take a path identifier check it before
    anything else: a text that is not a valid ObjectId is answered 400
    with the process untouched; a valid one that, cast to an ObjectId,
    is the [_id] of no stored book is answered 404 when the store
    answers (for an update, when the payload casts to the schema). *)
Lemma controllers_check_the_id_first (req : Req) (w : World) :
  (ObjectId_isValid (bookId req) = false ->
     serve (Complete.getBookById req) w
       = (mkRes 400 (Some (MessageJson "Invalid book ID")), w)
     /\ serve (Complete.updateBook req) w
       = (mkRes 400 (Some (MessageJson "Invalid book ID")), w)
     /\ serve (Complete.deleteBook req) w
       = (mkRes 400 (Some (MessageJson "Invalid book ID")), w))
  /\ (ObjectId_isValid (bookId req) = true ->
      connected w = true ->
      find_book (ObjectId_hex (bookId req)) (books w) = None ->
      fst (serve (Complete.getBookById req) w)
        = mkRes 404 (Some (MessageJson "Book not found"))
      /\ (cast_update (body req) <> None ->
          fst (serve (Complete.updateBook req) w)
            = mkRes 404 (Some (MessageJson "Book not found")))
      /\ fst (serve (Complete.deleteBook req) w)
        = mkRes 404 (Some (MessageJson "Book not found"))).
Proof.
  split.
  - intro Hbad.
    unfold Complete.getBookById, Complete.updateBook, Complete.deleteBook.
    rewrite Hbad. repeat split.
  - intros Hok Hup Hnone.
    unfold Complete.getBookById, Complete.updateBook, Complete.deleteBook,
      Book_findById, Book_findOneAndUpdate, Book_findOneAndDelete.
    rewrite Hok. cbn [negb]. split; [ | split].
    + step_handler. rewrite Hup, Hnone. reflexivity.
    + intro Hcast. destruct (cast_update (body req)); [ | congruence].
      step_handler. rewrite Hup, Hnone. reflexivity.
    + step_handler. rewrite Hup, Hnone. reflexivity.
Qed.

(* ------------------------------------------------------------------ *)
(** *** Signup and login *)

Lemma falsy_spec (x : option string) : falsy x = true <-> absent_or_empty x.
Proof.
  unfold falsy, truthy, absent_or_empty. destruct x as [s | ].
  - rewrite negb_involutive. split.
    + intro E. apply String.eqb_eq in E. subst. right. reflexivity.
    + intros [E | E]; [discriminate | ].
      injection E as ->. reflexivity.
  - split; [intros _; left; reflexivity | reflexivity].
Qed.

Lemma present_spec (x : option string) :
  ~ absent_or_empty x ->
  x = Some (the x) /\ the x <> "" /\ truthy x = true.
Proof.
  intro H. destruct x as [s | ].
  - assert (s <> "") as Hs
      by (intros ->; apply H; right; reflexivity).
    repeat split; [exact Hs | ].
    unfold truthy. apply String.eqb_neq in Hs. rewrite Hs. reflexivity.
  - exfalso. apply H. left. reflexivity.
Qed.

Lemma required_string_nonempty (s : string) :
  s <> "" -> required_string (Some s) = Some s.
Proof.
  intro H. unfold required_string, truthy.
  apply String.eqb_neq in H. rewrite H. reflexivity.
Qed.

(** Replaces a field known to be present by its text. *)
Ltac field_present H :=
  match type of H with
  | ~ absent_or_empty ?x =>
      let E := fresh "E" in
      let N := fresh "N" in
      destruct (present_spec x H) as (E & N & _);
      destruct x as [? | ]; [cbn [the or_else] in * | discriminate E];
      clear E H
  end.

Lemma missing_field_spec (b : Body) :
  falsy (p_name b) || falsy (p_email b) || falsy (p_password b)
  || falsy (p_phone_number b) || falsy (p_gender b)
  || falsy (p_date_of_birth b) || falsy (p_membership_status b) = true
  <-> Exists absent_or_empty (required_fields b).
Proof.
  unfold required_fields.
  repeat rewrite Exists_cons. rewrite Exists_nil.
  repeat rewrite orb_true_iff. repeat rewrite falsy_spec. tauto.
Qed.

Lemma all_fields_present (b : Body) :
  Forall (fun x => ~ absent_or_empty x) (required_fields b) ->
  falsy (p_name b) || falsy (p_email b) || falsy (p_password b)
  || falsy (p_phone_number b) || falsy (p_gender b)
  || falsy (p_date_of_birth b) || falsy (p_membership_status b) = false.
Proof.
  intro H. apply not_true_is_false. intro E.
  apply missing_field_spec in E.
  apply Exists_exists in E. destruct E as (x & Hin & Hx).
  rewrite Forall_forall in H. exact (H x Hin Hx).
Qed.

(** The three outcomes of [signupUser]. *)
Lemma signupUser_steps :
  forall (req : Req) (w : World),
    let b := body req in
    (Exists absent_or_empty (required_fields b) ->
       serve (Complete.signupUser req) w
         = (mkRes 400 (Some (ErrorJson "Please add all fields")), w))
    /\ (Forall (fun x => ~ absent_or_empty x) (required_fields b) ->
        connected w = true ->
        forall u,
          find_user_by_email (the (p_email b)) (users w) = Some u ->
          fst (serve (Complete.signupUser req) w)
            = mkRes 400 (Some (ErrorJson "User already exists"))
          /\ users (snd (serve (Complete.signupUser req) w)) = users w)
    /\ (Forall (fun x => ~ absent_or_empty x) (required_fields b) ->
        connected w = true ->
        find_user_by_email (the (p_email b)) (users w) = None ->
        forall t,
          Date_parse (the (p_date_of_birth b)) = Some t ->
          let _id := ObjectId_fresh (oidCounter w) in
          let salt := bcrypt_genSalt 10 (saltCounter w) in
          let created :=
            mkUser _id (the (p_name b)) (the (p_email b))
                   (bcrypt_hash (the (p_password b)) salt)
                   (the (p_phone_number b)) (the (p_gender b)) t
                   (the (p_membership_status b)) (clock w) (clock w) in
          fst (serve (Complete.signupUser req) w)
            = mkRes 201
                (Some (AuthJson (p_email b)
                         (jwt_sign _id (SECRET w) three_days (clock w))))
          /\ users (snd (serve (Complete.signupUser req) w))
             = (users w ++ [created])%list).
Proof.
  intros req w b. subst b. split; [ | split].
  - intro Hmiss. apply missing_field_spec in Hmiss.
    unfold Complete.signupUser. cbv zeta. rewrite Hmiss. reflexivity.
  - intros Hall Hup u Hfound.
    pose proof (all_fields_present _ Hall) as Hnone.
    inversion Hall as [ | ? ? _ Hrest]. inversion Hrest as [ | ? ? He _].
    destruct (present_spec _ He) as (Ee & _ & _).
    unfold Complete.signupUser, User_findOne_by_email. cbv zeta.
    rewrite Hnone. step_handler. rewrite Hup, Ee, Hfound.
    split; reflexivity.
  - intros Hall Hup Hfresh t Hdate _id salt created.
    pose proof (all_fields_present _ Hall) as Hnone.
    unfold required_fields in Hall.
    repeat match goal with
           | H : Forall _ (_ :: _) |- _ =>
               let Hx := fresh "Hx" in
               let Hr := fresh "Hr" in
               inversion H as [ | ? ? Hx Hr]; subst; clear H
           end.
    subst _id salt created.
    destruct req as [m pth a bid bd usr].
    destruct bd as [? ? ? ? ? ? ? nm em pw ph ge dob ms].
    cbn [body p_name p_email p_password p_phone_number p_gender
         p_date_of_birth p_membership_status] in *.
    field_present Hx. field_present Hx0. field_present Hx1.
    field_present Hx2. field_present Hx3. field_present Hx4.
    field_present Hx5.
    unfold Complete.signupUser, User_findOne_by_email, genSalt, hash,
      User_create, Complete.generateToken, User_validate.
    cbn [body p_name p_email p_password p_phone_number p_gender
         p_date_of_birth p_membership_status].
    rewrite Hnone. step_handler. rewrite Hup, Hfresh. simpl.
    rewrite !required_string_nonempty
      by (assumption || apply bcrypt_hash_nonempty).
    rewrite Hdate. simpl. rewrite Hfresh.
    split; reflexivity.
Qed.

(** C4.  Signup: (1) when one of the seven required fields is absent or
    empty the answer is 400 with "Please add all fields" and the process
    is untouched; (2) when every field is present, the store answers and
    a user with the submitted email exists, the answer is 400 with
    "User already exists" and the collection is unchanged; (3) when
    every field is present, the store answers, no user has the email and
    the date of birth casts to a Date, a user holding the bcrypt digest
    of the password under a fresh salt is appended to the collection and
    the answer is 201 with the email and a token for the new [_id]. *)
Theorem signupUser_contract :
  forall (req : Req) (w : World),
    method req = POST ->
    path req = ["api"; "users"; "signup"] ->
    let b := body req in
    let answer := serve (Complete.app Complete.bookControllers req) w in
    (Exists absent_or_empty (required_fields b) ->
       answer = (mkRes 400 (Some (ErrorJson "Please add all fields")), w))
    /\ (Forall (fun x => ~ absent_or_empty x) (required_fields b) ->
        connected w = true ->
        forall u,
          find_user_by_email (the (p_email b)) (users w) = Some u ->
          fst answer = mkRes 400 (Some (ErrorJson "User already exists"))
          /\ users (snd answer) = users w)
    /\ (Forall (fun x => ~ absent_or_empty x) (required_fields b) ->
        connected w = true ->
        find_user_by_email (the (p_email b)) (users w) = None ->
        forall t,
          Date_parse (the (p_date_of_birth b)) = Some t ->
          let _id := ObjectId_fresh (oidCounter w) in
          let salt := bcrypt_genSalt 10 (saltCounter w) in
          let created :=
            mkUser _id (the (p_name b)) (the (p_email b))
                   (bcrypt_hash (the (p_password b)) salt)
                   (the (p_phone_number b)) (the (p_gender b)) t
                   (the (p_membership_status b)) (clock w) (clock w) in
          fst answer
            = mkRes 201
                (Some (AuthJson (p_email b)
                         (jwt_sign _id (SECRET w) three_days (clock w))))
          /\ users (snd answer) = (users w ++ [created])%list).
Proof.
  intros req w Hm Hp b answer. subst b answer.
  rewrite (route_signup _ _ Hm Hp).
  exact (signupUser_steps (with_path req ["signup"]) w).
Qed.

(** The two failing branches of [loginUser]. *)
Lemma loginUser_steps :
  forall (req1 req2 : Req) (w1 w2 : World) (e2 pw2 : string) (u : User),
    connected w1 = true ->
    connected w2 = true ->
    (forall e1, p_email (body req1) = Some e1 ->
                find_user_by_email e1 (users w1) = None) ->
    p_email (body req2) = Some e2 ->
    find_user_by_email e2 (users w2) = Some u ->
    p_password (body req2) = Some pw2 ->
    bcrypt_compare pw2 (u_password u) = false ->
    fst (serve (Complete.loginUser req1) w1)
      = mkRes 400 (Some (ErrorJson "Invalid credentials"))
    /\ fst (serve (Complete.loginUser req2) w2)
      = fst (serve (Complete.loginUser req1) w1).
Proof.
  intros req1 req2 w1 w2 e2 pw2 u Hup1 Hup2 Hnone He2 Hu Hpw Hno.
  assert (fst (serve (Complete.loginUser req1) w1)
          = mkRes 400 (Some (ErrorJson "Invalid credentials"))) as H1.
  { unfold Complete.loginUser, User_findOne_by_email. cbv zeta.
    step_handler. rewrite Hup1.
    destruct (p_email (body req1)) as [e1 | ]; [ | reflexivity].
    rewrite (Hnone e1 eq_refl). reflexivity. }
  split; [exact H1 | ]. rewrite H1.
  unfold Complete.loginUser, User_findOne_by_email, compare. cbv zeta.
  step_handler. rewrite Hup2, He2, Hu, Hpw. simpl. rewrite Hno.
  reflexivity.
Qed.

(** Two failed logins, whatever the two processes: one whose email
    matches no user, one whose email matches a user and whose password
    is a text that bcrypt compares with the stored digest and rejects.
    When the store answers, both get the same response: 400 with
    "Invalid credentials".  A login without a password is not among
    them. *)
Theorem loginUser_failures_look_alike :
  forall (req1 req2 : Req) (w1 w2 : World) (e2 pw2 : string) (u : User),
    method req1 = POST ->
    path req1 = ["api"; "users"; "login"] ->
    method req2 = POST ->
    path req2 = ["api"; "users"; "login"] ->
    connected w1 = true ->
    connected w2 = true ->
    (forall e1, p_email (body req1) = Some e1 ->
                find_user_by_email e1 (users w1) = None) ->
    p_email (body req2) = Some e2 ->
    find_user_by_email e2 (users w2) = Some u ->
    p_password (body req2) = Some pw2 ->
    bcrypt_compare pw2 (u_password u) = false ->
    fst (serve (Complete.app Complete.bookControllers req1) w1)
      = mkRes 400 (Some (ErrorJson "Invalid credentials"))
    /\ fst (serve (Complete.app Complete.bookControllers req2) w2)
      = fst (serve (Complete.app Complete.bookControllers req1) w1).
Proof.
  intros req1 req2 w1 w2 e2 pw2 u Hm1 Hp1 Hm2 Hp2.
  rewrite (route_login _ _ Hm1 Hp1), (route_login _ _ Hm2 Hp2).
  exact (loginUser_steps (with_path req1 ["login"])
           (with_path req2 ["login"]) w1 w2 e2 pw2 u).
Qed.

(* ------------------------------------------------------------------ *)
(** *** Creating a book *)

Lemma find_user_by_id_found (id : string) (l : list User) (u : User) :
  find_user_by_id id l = Some u -> u_id u = id.
Proof.
  intro H. apply find_some in H. destruct H as [_ H].
  apply String.eqb_eq in H. exact H.
Qed.

Lemma Book_validate_owner (id : string) (b : Body) (now : Z) (bk : Book) :
  Book_validate id b now = Some bk ->
  p_user_id b = Some (user_id bk) /\ ObjectId_isValid (user_id bk) = true.
Proof.
  unfold Book_validate. intro H.
  destruct (required_string (p_title b)); [ | discriminate].
  destruct (required_string (p_author b)); [ | discriminate].
  destruct (required_string (p_isbn b)); [ | discriminate].
  destruct (required_string (p_publisher b)); [ | discriminate].
  destruct (required_string (p_genre b)); [ | discriminate].
  destruct (p_availability b) as [av | ]; [ | discriminate].
  destruct (p_user_id b) as [uid | ]; [ | discriminate].
  destruct (cast_availability av) as [av' | ]; [ | discriminate].
  destruct (isAvailable av'); [ | discriminate].
  destruct (ObjectId_isValid uid) eqn:V; [ | discriminate].
  injection H as <-. split; [reflexivity | exact V].
Qed.

(** C7.  A POST /api/books whose Authorization header yields a token
    that verifies to a payload [c], for a user that exists, with the
    store answering and a payload that passes the Book schema once the
    caller's id is written over its [user_id]: the answer is 201 with
    the stored book, the book is appended to the collection, its
    [user_id] is the [_id] of the token, and putting any other value
    (or none) under [user_id] in the payload changes nothing. *)
Theorem createBook_owner_is_caller :
  forall (req : Req) (w : World) (hdr : string)
         (c : Claims) (u : User) (b : Book),
    method req = POST ->
    path req = ["api"; "books"] ->
    authorization req = Some hdr ->
    hdr <> "" ->
    connected w = true ->
    jwt_verify (Complete.token_of hdr) (SECRET w) (clock w) = Returned c ->
    find_user_by_id (claim_id c) (users w) = Some u ->
    Book_validate (ObjectId_fresh (oidCounter w))
      (spread_with_user_id (body req) (claim_id c)) (clock w) = Some b ->
    let answer := serve (Complete.app Complete.bookControllers req) w in
    fst answer = mkRes 201 (Some (BookJson b))
    /\ books (snd answer) = (books w ++ [b])%list
    /\ user_id b = claim_id c
    /\ forall o : option string,
         serve (Complete.app Complete.bookControllers
                  (with_body req (with_owner (body req) o))) w
         = answer.
Proof.
  intros req w hdr c u b Hm Hp Ha Hne Hup Hv Hu Hb answer.
  subst answer.
  pose proof (find_user_by_id_found _ _ _ Hu) as Hid.
  destruct (Book_validate_owner _ _ _ _ Hb) as [Hown Hvalid].
  cbn [spread_with_user_id p_user_id] in Hown. injection Hown as Hown.
  rewrite <- Hown in Hvalid.
  assert (falsy (Some hdr) = false) as Hf.
  { unfold falsy, truthy. apply String.eqb_neq in Hne. rewrite Hne.
    reflexivity. }
  assert (forall o,
            serve (Complete.app Complete.bookControllers
                     (with_body req (with_owner (body req) o))) w
            = (mkRes 201 (Some (BookJson b)),
               set_books
                 (mkWorld (users w) (books w) (clock w) true
                    (S (oidCounter w)) (saltCounter w) (SECRET w)
                    (CallBookSave :: CallUserFindOneById (claim_id c)
                       :: journal w))
                 (books w ++ [b]))) as Hany.
  { intro o.
    rewrite (route_books _ (with_body req (with_owner (body req) o)) [] Hp).
    unfold Complete.bookRouter.
    cbn [method path authorization body bookId user with_path with_body].
    rewrite Hm. unfold Complete.requireAuth.
    cbn [method path authorization body bookId user with_path with_body].
    rewrite Ha, Hf. cbn [or_else].
    unfold verify, User_findOne_by_id. step_handler.
    rewrite Hv. simpl. rewrite Hvalid. step_handler. rewrite Hup, Hu. simpl.
    rewrite Hid, Hm.
    unfold Complete.createBook, Complete.req_user_id, Book_save, Book_new.
    step_handler. change (spread_with_user_id (with_owner (body req) o))
      with (spread_with_user_id (body req)).
    rewrite Hb. reflexivity. }
  assert (serve (Complete.app Complete.bookControllers req) w
          = serve (Complete.app Complete.bookControllers
                     (with_body req (with_owner (body req) (p_user_id (body req)))))
              w) as Hsame.
  { destruct req as [m pth a bid [? ? ? ? ? ? ? ? ? ? ? ? ? ?] usr].
    reflexivity. }
  rewrite Hsame, (Hany (p_user_id (body req))).
  repeat split.
  - symmetry. exact Hown.
  - intro o. apply Hany.
Qed.

(* ------------------------------------------------------------------ *)
(** *** Updating a book *)

(** C8, as the code has it.  An update of an existing book, with the
    store answering and a payload of the documented Book shape that
    casts to the schema, responds 200 with the record after the update
    and stores that record in place of the old one.  Each top-level key
    the payload carries is set to the payload's value (a [user_id] as
    the ObjectId it casts to), each key it lacks keeps the stored value;
    an [availability] object in the payload replaces the stored one as
    a whole (its absent members are not filled from the stored object);
    [_id] and [createdAt] stay and [updatedAt] becomes the time of the
    update. *)
Theorem updateBook_sets_payload_keys :
  forall (req : Req) (w : World) (old : Book) (av : option Availability),
    ObjectId_isValid (bookId req) = true ->
    connected w = true ->
    find_book (ObjectId_hex (bookId req)) (books w) = Some old ->
    cast_update (body req) = Some av ->
    let p := body req in
    let answer := serve (Complete.updateBook req) w in
    exists b' : Book,
      fst answer = mkRes 200 (Some (BookJson b'))
      /\ books (snd answer)
         = replace_book (ObjectId_hex (bookId req)) b' (books w)
      /\ b_id b' = b_id old
      /\ createdAt b' = createdAt old
      /\ updatedAt b' = clock w
      /\ title b' = or_else (p_title p) (title old)
      /\ author b' = or_else (p_author p) (author old)
      /\ isbn b' = or_else (p_isbn p) (isbn old)
      /\ publisher b' = or_else (p_publisher p) (publisher old)
      /\ genre b' = or_else (p_genre p) (genre old)
      /\ user_id b'
         = or_else (option_map ObjectId_hex (p_user_id p)) (user_id old)
      /\ (p_availability p = None -> availability b' = availability old)
      /\ (forall a, p_availability p = Some a ->
                    cast_availability a = Some (availability b')).
Proof.
  intros req w old av Hok Hup Hold Hcast p answer. subst p answer.
  exists (apply_update (body req) av (clock w) old).
  split; [ | split].
  - unfold Complete.updateBook, Book_findOneAndUpdate.
    rewrite Hok, Hcast. step_handler. rewrite Hup, Hold. reflexivity.
  - unfold Complete.updateBook, Book_findOneAndUpdate.
    rewrite Hok, Hcast. step_handler. rewrite Hup, Hold. reflexivity.
  - unfold apply_update. cbn [b_id createdAt updatedAt title author isbn
      publisher genre user_id availability].
    repeat (split; [reflexivity | ]).
    unfold cast_update in Hcast.
    destruct (match p_user_id (body req) with
              | Some uid => ObjectId_isValid uid
              | None => true
              end); [ | discriminate].
    split.
    + intro E. rewrite E in Hcast. injection Hcast as <-. reflexivity.
    + intros a E. rewrite E in Hcast.
      destruct (cast_availability a) as [a' | ]; [ | discriminate].
      injection Hcast as <-. reflexivity.
Qed.

(* ------------------------------------------------------------------ *)
(** *** Tokens *)

(** C9.  For every user id, [generateToken] yields, without touching the
    process, a token that parses to a payload holding exactly that id,
    issued at the current second and expiring 259200 seconds (three
    days) later, signed under [process.env.SECRET]; and [jwt.verify]
    under the same secret returns that payload at every instant before
    the expiry, and throws from the expiry on. *)
Theorem generateToken_three_days :
  forall (_id : string) (w : World) (r : Res),
    let token := jwt_sign _id (SECRET w) three_days (clock w) in
    Complete.generateToken _id (mkSt w r) = (Returned token, mkSt w r)
    /\ exists j : Jwt,
         jwt_parse token = Some j
         /\ claim_id (claims j) = _id
         /\ iat (claims j) = clock w / 1000
         /\ exp (claims j) = clock w / 1000 + 259200
         /\ signature j = hmac (SECRET w) (claims j)
         /\ (forall now, now / 1000 < exp (claims j) ->
                jwt_verify (Some token) (SECRET w) now = Returned (claims j))
         /\ (forall now, exp (claims j) <= now / 1000 ->
                jwt_verify (Some token) (SECRET w) now = Thrown "jwt expired").
Proof.
  intros _id w r token. split; [reflexivity | ].
  set (c := mkClaims _id (clock w / 1000) (clock w / 1000 + three_days)).
  exists (mkJwt c (hmac (SECRET w) c)).
  assert (jwt_parse token = Some (mkJwt c (hmac (SECRET w) c))) as Hparse
    by apply jwt_parse_serialize.
  assert (String.eqb token "" = false) as Hne
    by (apply String.eqb_neq, jwt_serialize_nonempty).
  repeat split; try assumption.
  - intros now Hnow. unfold jwt_verify.
    rewrite Hne, Hparse. cbn [signature claims].
    rewrite String.eqb_refl.
    destruct (exp c <=? now / 1000) eqn:E; [ | reflexivity].
    apply Z.leb_le in E. cbn [claims] in Hnow. lia.
  - intros now Hnow. unfold jwt_verify.
    rewrite Hne, Hparse. cbn [signature claims].
    rewrite String.eqb_refl.
    cbn [claims] in Hnow. apply Z.leb_le in Hnow. rewrite Hnow.
    reflexivity.
Qed.

(* ------------------------------------------------------------------ *)
(** *** The middleware in front of the protected routes *)

(** C1, as the code has it.  A POST /api/books, PUT /api/books/:bookId
    or DELETE /api/books/:bookId without an Authorization header, or
    with an empty one, is answered 401 with "Authorization token
    required" whatever the controllers behind the router are, and the
    process is left as it was: no handler ran. *)
Theorem requireAuth_rejects_missing_header :
  forall (c : Controllers) (req : Req) (w : World),
    protected_request req ->
    absent_or_empty (authorization req) ->
    serve (Complete.app c req) w
      = (mkRes 401 (Some (ErrorJson "Authorization token required")), w).
Proof.
  intros c req w Hroute Habsent.
  apply falsy_spec in Habsent.
  destruct Hroute as [[Hm Hp] | [[Hm [id Hp]] | [Hm [id Hp]]]];
    rewrite (route_books _ _ _ Hp); unfold Complete.bookRouter;
    cbn [method path with_path]; rewrite Hm;
    unfold Complete.requireAuth; cbn [authorization with_path];
    rewrite Habsent; reflexivity.
Qed.

(** A token that does not verify is answered 401 with "Request is not
    authorized"; no handler runs and the process is left as it was. *)
Lemma requireAuth_rejects_bad_token (req : Req) (next : Handler) (w : World)
  (hdr e : string) :
  authorization req = Some hdr ->
  hdr <> "" ->
  jwt_verify (Complete.token_of hdr) (SECRET w) (clock w) = Thrown e ->
  serve (Complete.requireAuth req next) w
    = (mkRes 401 (Some (ErrorJson "Request is not authorized")), w).
Proof.
  intros Ha Hne Hv. unfold Complete.requireAuth. rewrite Ha.
  assert (falsy (Some hdr) = false) as ->.
  { unfold falsy, truthy. apply String.eqb_neq in Hne. rewrite Hne.
    reflexivity. }
  cbn [or_else]. unfold verify. step_handler. rewrite Hv. reflexivity.
Qed.

(** A token that verifies for an [_id] no user carries: [findOne]
    yields [null], which is stored in [req.user], and [next()] runs. *)
Lemma requireAuth_forwards_null_user (req : Req) (next : Handler) (w : World)
  (hdr : string) (c : Claims) :
  authorization req = Some hdr ->
  hdr <> "" ->
  jwt_verify (Complete.token_of hdr) (SECRET w) (clock w) = Returned c ->
  connected w = true ->
  ObjectId_isValid (claim_id c) = true ->
  find_user_by_id (claim_id c) (users w) = None ->
  Complete.requireAuth req next (mkSt w freshRes)
    = next (with_user req None)
           (mkSt (log_call (CallUserFindOneById (claim_id c)) w) freshRes).
Proof.
  intros Ha Hne Hv Hup Hvalid Hnone. unfold Complete.requireAuth. rewrite Ha.
  assert (falsy (Some hdr) = false) as ->.
  { unfold falsy, truthy. apply String.eqb_neq in Hne. rewrite Hne.
    reflexivity. }
  cbn [or_else]. unfold verify, User_findOne_by_id. step_handler.
  rewrite Hv. simpl. rewrite Hvalid. step_handler. rewrite Hup, Hnone. reflexivity.
Qed.

End Contracts.

(* ================================================================== *)
(** ** Further behaviour of the code *)

Section Behaviour.

Context {P : Platform} {L : PlatformLaws P}.

(* ------------------------------------------------------------------ *)
(** *** The shipped application *)

(** X1.  The application that ships in the starter, [app.js] over
    [routes/bookRouter.js] over the placeholder controllers: each of the
    five routes under /api/books answers 200 with the name of its
    controller, whatever the Authorization header, the body and the
    store, and leaves the process untouched.  Nothing stands in front of
    POST, PUT and DELETE. *)
Theorem starter_app_serves_placeholders :
  forall (req : Req) (w : World) (id : string),
    let answer := serve (Starter.app Starter.bookControllers req) w in
    (path req = ["api"; "books"] ->
       (method req = GET ->
          answer = (mkRes 200 (Some (Text "getAllBooks")), w))
       /\ (method req = POST ->
           answer = (mkRes 200 (Some (Text "createBook")), w)))
    /\ (path req = ["api"; "books"; id] ->
        (method req = GET ->
           answer = (mkRes 200 (Some (Text "getBookById")), w))
        /\ (method req = PUT ->
            answer = (mkRes 200 (Some (Text "updateBook")), w))
        /\ (method req = DELETE ->
            answer = (mkRes 200 (Some (Text "deleteBook")), w))).
Proof.
  intros req w id answer. subst answer. unfold Starter.app.
  split; intro Hp; rewrite Hp; unfold Starter.bookRouter;
    cbn [method path with_path]; repeat split; intro Hm; rewrite Hm;
    reflexivity.
Qed.

(* ------------------------------------------------------------------ *)
(** *** Reading the Authorization header *)

Lemma split_no_space (s : string) :
  has_no_space s = true -> split space s = [s].
Proof.
  induction s as [ | c r IH]; intro H.
  - reflexivity.
  - cbn [has_no_space] in H. apply andb_true_iff in H. destruct H as [Hc Hr].
    cbn [split]. apply negb_true_iff in Hc. rewrite Hc, (IH Hr).
    reflexivity.
Qed.

Lemma split_word_then (a rest : string) :
  has_no_space a = true ->
  split space (a ++ String space rest) = a :: split space rest.
Proof.
  induction a as [ | c r IH]; intro H.
  - cbn [append split]. rewrite Ascii.eqb_refl. reflexivity.
  - cbn [has_no_space] in H. apply andb_true_iff in H. destruct H as [Hc Hr].
    cbn [append split]. apply negb_true_iff in Hc. rewrite Hc, (IH Hr).
    reflexivity.
Qed.

(** X2.  [authorization.split(" ")[1]]: a header that is one word has no
    second piece ([undefined]); a header made of a word, one space and a
    token yields the token, whatever the first word is ([Bearer] is not
    looked at); after two spaces the token read is the empty string;
    and what follows a second space is dropped. *)
Theorem token_of_pieces :
  forall (scheme token rest : string),
    has_no_space scheme = true ->
    has_no_space token = true ->
    Complete.token_of scheme = None
    /\ Complete.token_of (scheme ++ " " ++ token) = Some token
    /\ Complete.token_of (scheme ++ "  " ++ token) = Some ""
    /\ Complete.token_of (scheme ++ " " ++ token ++ " " ++ rest) = Some token.
Proof.
  intros scheme token rest Hs Ht. unfold Complete.token_of.
  repeat split.
  - rewrite (split_no_space _ Hs). reflexivity.
  - change (scheme ++ " " ++ token)%string
      with (scheme ++ String space token)%string.
    rewrite (split_word_then _ _ Hs), (split_no_space _ Ht). reflexivity.
  - change (scheme ++ "  " ++ token)%string
      with (scheme ++ String space (String space token))%string.
    rewrite (split_word_then _ _ Hs). cbn [split].
    rewrite Ascii.eqb_refl. reflexivity.
  - change (scheme ++ " " ++ token ++ " " ++ rest)%string
      with (scheme ++ String space (token ++ String space rest))%string.
    rewrite (split_word_then _ _ Hs), (split_word_then _ _ Ht). reflexivity.
Qed.

(* ------------------------------------------------------------------ *)
(** *** What the middleware lets through *)

Lemma falsy_nonempty (h : string) : h <> "" -> falsy (Some h) = false.
Proof.
  intro H. unfold falsy, truthy. apply String.eqb_neq in H. rewrite H.
  reflexivity.
Qed.

(** Below the two public routes every request goes through
    [requireAuth]. *)
Lemma bookRouter_protected (c : Controllers) (req : Req) (next : M unit) :
  public_route req = false ->
  Complete.bookRouter c req next
  = Complete.requireAuth req (fun req =>
      match method req, path req with
      | POST, [] => ctl_createBook c req
      | PUT, [id] => ctl_updateBook c (with_bookId req id)
      | DELETE, [id] => ctl_deleteBook c (with_bookId req id)
      | _, _ => next
      end).
Proof.
  unfold public_route, Complete.bookRouter.
  destruct (method req); try reflexivity.
  destruct (path req) as [ | a [ | b l]]; try reflexivity; discriminate.
Qed.

(** What [jwt.verify] makes of a token that [jwt.sign] made. *)
Lemma jwt_verify_sign (_id key key' : string) (span issued now : Z) :
  let c := mkClaims _id (issued / 1000) (issued / 1000 + span) in
  jwt_verify (Some (jwt_sign _id key span issued)) key' now
  = if String.eqb (hmac key c) (hmac key' c)
    then if issued / 1000 + span <=? now / 1000
         then Thrown "jwt expired"
         else Returned c
    else Thrown "invalid signature".
Proof.
  intro c. unfold jwt_verify, jwt_sign. fold c.
  assert (String.eqb (jwt_serialize (mkJwt c (hmac key c))) "" = false) as ->
    by (apply String.eqb_neq, jwt_serialize_nonempty).
  rewrite jwt_parse_serialize. reflexivity.
Qed.

(** X3.  The router of step 7d puts [requireAuth] in front of everything
    but the two public GET routes: any other request below /api/books
    that has no Authorization header, or an empty one, is answered 401
    with "Authorization token required", also when no route exists for
    it (a PATCH, a path of two segments), whatever the controllers and
    the middleware after the router; the process is left as it was. *)
Theorem bookRouter_guards_all_but_public :
  forall (c : Controllers) (req : Req) (next : M unit) (w : World),
    public_route req = false ->
    absent_or_empty (authorization req) ->
    serve (Complete.bookRouter c req next) w
      = (mkRes 401 (Some (ErrorJson "Authorization token required")), w).
Proof.
  intros c req next w Hroute Habsent.
  rewrite (bookRouter_protected _ _ _ Hroute).
  apply falsy_spec in Habsent. unfold Complete.requireAuth.
  rewrite Habsent. reflexivity.
Qed.

(** X4.  The two public routes never look at the Authorization header:
    GET /api/books and GET /api/books/:bookId give the same response
    and leave the same process whatever the header is, a stale or
    forged token included. *)
Theorem public_routes_ignore_authorization :
  forall (req : Req) (next : M unit) (w : World) (h : option string),
    public_route req = true ->
    serve (Complete.bookRouter Complete.bookControllers
             (with_authorization req h) next) w
    = serve (Complete.bookRouter Complete.bookControllers req next) w.
Proof.
  intros req next w h Hroute. unfold public_route in Hroute.
  unfold Complete.bookRouter. cbn [method path with_authorization].
  destruct (method req); try discriminate.
  destruct (path req) as [ | a [ | b l]]; try discriminate; reflexivity.
Qed.

(** X5.  [requireAuth] reads the header only through
    [authorization.split(" ")[1]]: two headers that are not empty and
    have the same second piece are treated alike, so a token sent as
    [Basic <token>] passes exactly when [Bearer <token>] does.  Stated
    for a continuation that does not read the header itself. *)
Theorem requireAuth_reads_second_piece_only :
  forall (req : Req) (next : Handler) (w : World) (h1 h2 : string),
    h1 <> "" ->
    h2 <> "" ->
    Complete.token_of h1 = Complete.token_of h2 ->
    (forall r h, next (with_authorization r h) = next r) ->
    serve (Complete.requireAuth (with_authorization req (Some h1)) next) w
    = serve (Complete.requireAuth (with_authorization req (Some h2)) next) w.
Proof.
  intros req next w h1 h2 H1 H2 Htok Hnext.
  unfold Complete.requireAuth. cbn [authorization with_authorization].
  rewrite (falsy_nonempty _ H1), (falsy_nonempty _ H2). cbn [or_else].
  rewrite Htok. unfold serve, try_then, bind.
  destruct (verify (Complete.token_of h2) (mkSt w freshRes)) as [[cl | e] s1];
    [ | reflexivity].
  destruct (User_findOne_by_id (claim_id cl) s1) as [[u | e] s2];
    [ | reflexivity].
  unfold ret.
  change (with_user (with_authorization req (Some h1)) u)
    with (with_authorization (with_user req u) (Some h1)).
  change (with_user (with_authorization req (Some h2)) u)
    with (with_authorization (with_user req u) (Some h2)).
  rewrite !Hnext. reflexivity.
Qed.

(** X6.  When the store cannot be reached, a protected request with a
    token that verifies is answered 401 "Request is not authorized",
    not 500: the failure of [User.findOne] is caught by the [catch] of
    the middleware.  No controller runs and both collections stay. *)
Theorem requireAuth_store_down_is_401 :
  forall (c : Controllers) (req : Req) (next : M unit) (w : World)
         (hdr : string) (cl : Claims),
    public_route req = false ->
    authorization req = Some hdr ->
    hdr <> "" ->
    jwt_verify (Complete.token_of hdr) (SECRET w) (clock w) = Returned cl ->
    connected w = false ->
    let answer := serve (Complete.bookRouter c req next) w in
    fst answer = mkRes 401 (Some (ErrorJson "Request is not authorized"))
    /\ users (snd answer) = users w
    /\ books (snd answer) = books w.
Proof.
  intros c req next w hdr cl Hroute Ha Hne Hv Hdown answer. subst answer.
  rewrite (bookRouter_protected _ _ _ Hroute).
  unfold Complete.requireAuth. rewrite Ha, (falsy_nonempty _ Hne).
  cbn [or_else]. unfold verify, User_findOne_by_id. step_handler.
  rewrite Hv. simpl.
  destruct (ObjectId_isValid (claim_id cl)); step_handler;
    rewrite ?Hdown; repeat split.
Qed.

(** X7.  A token that [generateToken] issued is refused once its three
    days are over, and at any time by a process whose secret signs
    differently: the answer is 401 "Request is not authorized", the
    continuation does not run and the process is left as it was. *)
Theorem requireAuth_refuses_old_and_foreign_tokens :
  forall (req : Req) (next : Handler) (w0 w : World) (_id hdr : string),
    let token := jwt_sign _id (SECRET w0) three_days (clock w0) in
    let c := mkClaims _id (clock w0 / 1000) (clock w0 / 1000 + three_days) in
    authorization req = Some hdr ->
    hdr <> "" ->
    Complete.token_of hdr = Some token ->
    (SECRET w = SECRET w0 /\ clock w0 / 1000 + 259200 <= clock w / 1000)
    \/ hmac (SECRET w0) c <> hmac (SECRET w) c ->
    serve (Complete.requireAuth req next) w
      = (mkRes 401 (Some (ErrorJson "Request is not authorized")), w).
Proof.
  intros req next w0 w _id hdr token c Ha Hne Htok Hwhy.
  assert (exists e, jwt_verify (Some token) (SECRET w) (clock w) = Thrown e)
    as [e He].
  { unfold token. rewrite jwt_verify_sign. fold c.
    destruct Hwhy as [[Hs Hlate] | Hkey].
    - rewrite Hs, String.eqb_refl.
      assert ((clock w0 / 1000 + three_days <=? clock w / 1000) = true) as ->
        by (apply Z.leb_le; unfold three_days; lia).
      eexists. reflexivity.
    - apply String.eqb_neq in Hkey. rewrite Hkey. eexists. reflexivity. }
  rewrite <- Htok in He.
  exact (requireAuth_rejects_bad_token req next w hdr e Ha Hne He).
Qed.

(** X8.  A token that [generateToken] issued for a user opens the
    protected routes for three days: presented before its expiry to a
    process with the same secret, with the store answering and the user
    still there, [requireAuth] makes one lookup, puts the user's [_id]
    in [req.user] and hands over to the next handler without touching
    the response. *)
Theorem requireAuth_admits_issued_token :
  forall (req : Req) (next : Handler) (w0 w : World) (hdr : string) (u : User),
    authorization req = Some hdr ->
    hdr <> "" ->
    Complete.token_of hdr
      = Some (jwt_sign (u_id u) (SECRET w0) three_days (clock w0)) ->
    SECRET w = SECRET w0 ->
    clock w / 1000 < clock w0 / 1000 + 259200 ->
    connected w = true ->
    ObjectId_isValid (u_id u) = true ->
    find_user_by_id (u_id u) (users w) = Some u ->
    Complete.requireAuth req next (mkSt w freshRes)
    = next (with_user req (Some (u_id u)))
           (mkSt (log_call (CallUserFindOneById (u_id u)) w) freshRes).
Proof.
  intros req next w0 w hdr u Ha Hne Htok Hs Hfresh Hup Hvalid Hu.
  unfold Complete.requireAuth. rewrite Ha, (falsy_nonempty _ Hne).
  rewrite <- Hs in Htok.
  cbn [or_else]. rewrite Htok. unfold verify, User_findOne_by_id.
  step_handler. rewrite jwt_verify_sign, String.eqb_refl.
  assert ((clock w0 / 1000 + three_days <=? clock w / 1000) = false) as ->
    by (apply Z.leb_gt; unfold three_days; lia).
  simpl. rewrite Hvalid. step_handler. rewrite Hup, Hu. reflexivity.
Qed.

(* ------------------------------------------------------------------ *)
(** *** What every controller does, whatever happens *)

(** Follows a handler down every branch it can take. *)
Ltac branches :=
  repeat (step_handler;
          match goal with
          | |- context [match ?x with _ => _ end] =>
              lazymatch x with
              | context [match _ with _ => _ end] => fail
              | _ => destruct x eqn:?
              end
          end);
  step_handler.

Ltac answered := simpl; split; [discriminate | auto 6].

(** X9.  Every controller always sends a response, and only with the
    status codes its [try]/[catch] and its guards name: 200 or 500 for
    the listing; 200, 400, 404 or 500 for a fetch and for an update;
    204, 400, 404 or 500 for a delete; 201 or 500 for [createBook] of
    step 7c; 201 or 400 for a signup; 200 or 400 for a login. *)
Theorem controllers_answer_with_their_codes :
  forall (req : Req) (w : World),
    answered_with [200; 500] (fst (serve (Complete.getAllBooks req) w))
    /\ answered_with [200; 400; 404; 500]
         (fst (serve (Complete.getBookById req) w))
    /\ answered_with [201; 500] (fst (serve (Complete.createBook req) w))
    /\ answered_with [200; 400; 404; 500]
         (fst (serve (Complete.updateBook req) w))
    /\ answered_with [204; 400; 404; 500]
         (fst (serve (Complete.deleteBook req) w))
    /\ answered_with [201; 400] (fst (serve (Complete.signupUser req) w))
    /\ answered_with [200; 400] (fst (serve (Complete.loginUser req) w)).
Proof.
  intros req w. unfold answered_with.
  split; [ | split; [ | split; [ | split; [ | split; [ | split]]]]].
  - unfold Complete.getAllBooks, Book_find_sorted. branches; answered.
  - unfold Complete.getBookById, Book_findById. branches; answered.
  - unfold Complete.createBook, Complete.req_user_id, Book_new, Book_save.
    branches; answered.
  - unfold Complete.updateBook, Book_findOneAndUpdate. branches; answered.
  - unfold Complete.deleteBook, Book_findOneAndDelete. branches; answered.
  - unfold Complete.signupUser, User_findOne_by_email, genSalt, hash,
      User_create, Complete.generateToken.
    branches; answered.
  - unfold Complete.loginUser, User_findOne_by_email, compare,
      Complete.generateToken.
    branches; answered.
Qed.

(** X10.  Each collection has its writers.  The five book controllers
    and the login never change the users; the listing, the fetch, the
    signup and the login never change the books: in every branch,
    failing ones included. *)
Theorem collections_have_their_writers :
  forall (req : Req) (w : World),
    (users (snd (serve (Complete.getAllBooks req) w)) = users w
     /\ users (snd (serve (Complete.getBookById req) w)) = users w
     /\ users (snd (serve (Complete.createBook req) w)) = users w
     /\ users (snd (serve (Complete.updateBook req) w)) = users w
     /\ users (snd (serve (Complete.deleteBook req) w)) = users w
     /\ users (snd (serve (Complete.loginUser req) w)) = users w)
    /\ (books (snd (serve (Complete.getAllBooks req) w)) = books w
        /\ books (snd (serve (Complete.getBookById req) w)) = books w
        /\ books (snd (serve (Complete.signupUser req) w)) = books w
        /\ books (snd (serve (Complete.loginUser req) w)) = books w).
Proof.
  intros req w.
  split; [split; [ | split; [ | split; [ | split; [ | split]]]]
         | split; [ | split; [ | split]]].
  - unfold Complete.getAllBooks, Book_find_sorted. branches; reflexivity.
  - unfold Complete.getBookById, Book_findById. branches; reflexivity.
  - unfold Complete.createBook, Complete.req_user_id, Book_new, Book_save.
    branches; reflexivity.
  - unfold Complete.updateBook, Book_findOneAndUpdate. branches; reflexivity.
  - unfold Complete.deleteBook, Book_findOneAndDelete. branches; reflexivity.
  - unfold Complete.loginUser, User_findOne_by_email, compare,
      Complete.generateToken.
    branches; reflexivity.
  - unfold Complete.getAllBooks, Book_find_sorted. branches; reflexivity.
  - unfold Complete.getBookById, Book_findById. branches; reflexivity.
  - unfold Complete.signupUser, User_findOne_by_email, genSalt, hash,
      User_create, Complete.generateToken.
    branches; reflexivity.
  - unfold Complete.loginUser, User_findOne_by_email, compare,
      Complete.generateToken.
    branches; reflexivity.
Qed.

Lemma find_user_by_email_none (e : string) (l : list User) :
  find_user_by_email e l = None -> ~ In e (map u_email l).
Proof.
  unfold find_user_by_email. intros H Hin.
  apply in_map_iff in Hin. destruct Hin as (u & Hu & Hin).
  pose proof (find_none _ _ H u Hin) as Hneq. cbn beta in Hneq.
  rewrite Hu, String.eqb_refl in Hneq. discriminate.
Qed.

Lemma NoDup_snoc (A : Type) (l : list A) (x : A) :
  NoDup l -> ~ In x l -> NoDup (l ++ [x]).
Proof.
  intros Hl Hx. apply (Permutation_NoDup (l := x :: l)).
  - apply Permutation_cons_append.
  - constructor; assumption.
Qed.

(** X11.  Signup keeps emails unique: when no two users share an email
    before a signup request, none do after it, whatever the request and
    whether it succeeds or fails.  The lookup by email before
    [User.create], and the unique index behind it, see to that. *)
Theorem signupUser_keeps_emails_unique :
  forall (req : Req) (w : World),
    NoDup (emails w) ->
    NoDup (emails (snd (serve (Complete.signupUser req) w))).
Proof.
  intros req w Hnodup. unfold emails in *.
  unfold Complete.signupUser, User_findOne_by_email, genSalt, hash,
    User_create, Complete.generateToken.
  branches; try exact Hnodup.
  all: rewrite map_app; apply NoDup_snoc; [exact Hnodup | ];
    apply find_user_by_email_none; assumption.
Qed.

(** X12.  [createBook] of step 7c either stores exactly one book or
    none.  When it answers 201, [req.user] held a user, the book
    answered is the one appended to the collection and it is owned by
    that user; in every other case the answer is 500 "Server Error" and
    the collection is unchanged: a request that did not pass the
    middleware, a [null] user, a payload the schema rejects, a store
    that fails. *)
Theorem createBook_stores_one_or_none :
  forall (req : Req) (w : World),
    let answer := serve (Complete.createBook req) w in
    (exists (b : Book) (uid : string),
       user req = UserResolved (Some uid)
       /\ fst answer = mkRes 201 (Some (BookJson b))
       /\ books (snd answer) = (books w ++ [b])%list
       /\ user_id b = uid)
    \/ (fst answer = mkRes 500 (Some (ErrorJson "Server Error"))
        /\ books (snd answer) = books w).
Proof.
  intros req w answer. subst answer.
  unfold Complete.createBook, Complete.req_user_id, Book_new, Book_save.
  destruct (user req) as [ | [uid | ]]; [right; split; reflexivity | |
                                         right; split; reflexivity].
  step_handler.
  destruct (Book_validate (ObjectId_fresh (oidCounter w))
              (spread_with_user_id (body req) uid) (clock w)) as [b | ] eqn:Hb;
    [ | right; split; reflexivity].
  step_handler.
  destruct (connected w); [ | right; split; reflexivity].
  left. exists b, uid.
  destruct (Book_validate_owner _ _ _ _ Hb) as [Hown _].
  cbn [spread_with_user_id p_user_id] in Hown. injection Hown as Hown.
  split; [reflexivity | split; [reflexivity | split; [reflexivity | ]]].
  symmetry. exact Hown.
Qed.

(* ------------------------------------------------------------------ *)
(** *** Lookups after writes *)

Lemma find_book_found (id : string) (l : list Book) (b : Book) :
  find_book id l = Some b -> b_id b = id.
Proof.
  intro H. apply find_some in H. destruct H as [_ H].
  apply String.eqb_eq in H. exact H.
Qed.

Lemma find_book_snoc (l : list Book) (b : Book) :
  find_book (b_id b) l = None -> find_book (b_id b) (l ++ [b]) = Some b.
Proof.
  unfold find_book. induction l as [ | x r IH]; cbn [find app]; intro H.
  - rewrite String.eqb_refl. reflexivity.
  - destruct (String.eqb (b_id x) (b_id b)); [discriminate | exact (IH H)].
Qed.

Lemma find_user_by_email_snoc (l : list User) (u : User) :
  find_user_by_email (u_email u) l = None ->
  find_user_by_email (u_email u) (l ++ [u]) = Some u.
Proof.
  unfold find_user_by_email.
  induction l as [ | x r IH]; cbn [find app]; intro H.
  - rewrite String.eqb_refl. reflexivity.
  - destruct (String.eqb (u_email x) (u_email u)); [discriminate | exact (IH H)].
Qed.

Lemma find_book_replace (id : string) (l : list Book) (old b' : Book) :
  find_book id l = Some old ->
  b_id b' = id ->
  find_book id (replace_book id b' l) = Some b'.
Proof.
  unfold find_book. intros H Hid.
  induction l as [ | x r IH]; cbn [find replace_book] in *; [discriminate | ].
  destruct (String.eqb (b_id x) id) eqn:E.
  - cbn [find]. rewrite Hid, String.eqb_refl. reflexivity.
  - cbn [find]. rewrite E. exact (IH H).
Qed.

Lemma map_replace_book (A : Type) (f : Book -> A) (id : string)
  (l : list Book) (old b' : Book) :
  find_book id l = Some old ->
  f b' = f old ->
  map f (replace_book id b' l) = map f l.
Proof.
  unfold find_book. intros H Hf.
  induction l as [ | x r IH]; cbn [find replace_book map] in *;
    [reflexivity | ].
  destruct (String.eqb (b_id x) id).
  - injection H as ->. cbn [map]. rewrite Hf. reflexivity.
  - cbn [map]. rewrite (IH H). reflexivity.
Qed.

Lemma find_book_absent (id : string) (l : list Book) :
  ~ In id (map b_id l) -> find_book id l = None.
Proof.
  unfold find_book. induction l as [ | x r IH]; cbn [find map In]; intro H.
  - reflexivity.
  - destruct (String.eqb (b_id x) id) eqn:E.
    + apply String.eqb_eq in E. exfalso. apply H. left. exact E.
    + apply IH. intro Hin. apply H. right. exact Hin.
Qed.

Lemma find_book_remove (id : string) (l : list Book) :
  NoDup (map b_id l) -> find_book id (remove_book id l) = None.
Proof.
  induction l as [ | x r IH]; cbn [remove_book map]; intro H.
  - reflexivity.
  - inversion H as [ | ? ? Hx Hr]; subst.
    destruct (String.eqb (b_id x) id) eqn:E.
    + apply String.eqb_eq in E. subst id. apply find_book_absent. exact Hx.
    + unfold find_book. cbn [find]. rewrite E. exact (IH Hr).
Qed.

Lemma find_book_remove_other (id id' : string) (l : list Book) :
  id' <> id -> find_book id' (remove_book id l) = find_book id' l.
Proof.
  intro Hneq. unfold find_book.
  induction l as [ | x r IH]; cbn [remove_book find]; [reflexivity | ].
  destruct (String.eqb (b_id x) id) eqn:E.
  - apply String.eqb_eq in E.
    assert (String.eqb (b_id x) id' = false) as ->
      by (apply String.eqb_neq; congruence).
    reflexivity.
  - cbn [find]. rewrite IH. reflexivity.
Qed.

(** X13.  An update never adds or removes a book and never changes an
    [_id] or a [createdAt]: after [updateBook], whatever the payload
    and the outcome, the collection lists the same identifiers with the
    same creation times in the same order. *)
Theorem updateBook_keeps_ids_and_creation_times :
  forall (req : Req) (w : World),
    let after := snd (serve (Complete.updateBook req) w) in
    map b_id (books after) = map b_id (books w)
    /\ map createdAt (books after) = map createdAt (books w).
Proof.
  intros req w after. subst after.
  unfold Complete.updateBook, Book_findOneAndUpdate.
  branches; try (split; reflexivity).
  all: match goal with
       | H : find_book _ _ = Some ?old |- _ =>
           split; apply (map_replace_book _ _ _ _ old _ H);
           [exact (eq_sym (eq_refl (b_id old))) | reflexivity]
       end.
Qed.

(** X14.  Deleting an existing book, in a collection whose identifiers
    are unique: the answer is 204 with no body, the book is gone, every
    other book is still found, and a fetch or a second delete under any
    spelling of the same ObjectId then answers 404. *)
Theorem deleteBook_then_not_found :
  forall (req : Req) (w : World) (b : Book),
    ObjectId_isValid (bookId req) = true ->
    connected w = true ->
    find_book (ObjectId_hex (bookId req)) (books w) = Some b ->
    NoDup (book_ids w) ->
    let answer := serve (Complete.deleteBook req) w in
    fst answer = mkRes 204 (Some NoContent)
    /\ books (snd answer)
       = remove_book (ObjectId_hex (bookId req)) (books w)
    /\ (forall id', id' <> ObjectId_hex (bookId req) ->
          find_book id' (books (snd answer)) = find_book id' (books w))
    /\ (forall req',
          ObjectId_isValid (bookId req') = true ->
          ObjectId_hex (bookId req') = ObjectId_hex (bookId req) ->
          fst (serve (Complete.getBookById req') (snd answer))
            = mkRes 404 (Some (MessageJson "Book not found"))
          /\ fst (serve (Complete.deleteBook req') (snd answer))
            = mkRes 404 (Some (MessageJson "Book not found"))).
Proof.
  intros req w b Hok Hup Hb Hnodup answer.
  assert (answer
          = (mkRes 204 (Some NoContent),
             set_books (log_call (CallBookFindOneAndDelete (bookId req)) w)
               (remove_book (ObjectId_hex (bookId req)) (books w)))) as ->.
  { subst answer. unfold Complete.deleteBook, Book_findOneAndDelete.
    rewrite Hok. step_handler. rewrite Hup, Hb. reflexivity. }
  cbn [fst snd set_books books].
  split; [reflexivity | split; [reflexivity | split]].
  - intros id' Hneq. apply find_book_remove_other. exact Hneq.
  - intros req' Hok' Hsame.
    pose proof (find_book_remove (ObjectId_hex (bookId req)) (books w) Hnodup)
      as Hgone.
    unfold Complete.getBookById, Complete.deleteBook, Book_findById,
      Book_findOneAndDelete.
    rewrite Hok'. step_handler. rewrite Hup, Hsame, Hgone.
    split; reflexivity.
Qed.

(** X15.  A book that [createBook] stored is found again: when the
    create answers 201 with a book whose new [_id] no stored book
    carries, a fetch right after under any valid spelling of that
    ObjectId answers 200 with the same book. *)
Theorem createBook_then_fetch :
  forall (req : Req) (w : World) (uid : string) (b : Book),
    user req = UserResolved (Some uid) ->
    connected w = true ->
    Book_validate (ObjectId_fresh (oidCounter w))
      (spread_with_user_id (body req) uid) (clock w) = Some b ->
    find_book (b_id b) (books w) = None ->
    let answer := serve (Complete.createBook req) w in
    fst answer = mkRes 201 (Some (BookJson b))
    /\ forall req',
         ObjectId_isValid (bookId req') = true ->
         ObjectId_hex (bookId req') = b_id b ->
         fst (serve (Complete.getBookById req') (snd answer))
           = mkRes 200 (Some (BookJson b)).
Proof.
  intros req w uid b Hu Hup Hb Hfresh answer.
  assert (answer
          = (mkRes 201 (Some (BookJson b)),
             set_books
               (mkWorld (users w) (books w) (clock w) true
                  (S (oidCounter w)) (saltCounter w) (SECRET w)
                  (CallBookSave :: journal w))
               (books w ++ [b]))) as ->.
  { subst answer.
    unfold Complete.createBook, Complete.req_user_id, Book_new, Book_save.
    rewrite Hu. step_handler. rewrite Hb. step_handler. rewrite Hup.
    reflexivity. }
  cbn [fst snd]. split; [reflexivity | ].
  intros req' Hvalid Hsame.
  unfold Complete.getBookById, Book_findById. rewrite Hvalid.
  step_handler. rewrite Hsame, (find_book_snoc _ _ Hfresh). reflexivity.
Qed.

(** X16.  An update is seen by the next fetch: after [updateBook]
    answers 200 with a record, a fetch under any valid spelling of the
    same ObjectId answers 200 with that very record, which still
    carries the identifier. *)
Theorem updateBook_then_fetch :
  forall (req : Req) (w : World) (old : Book) (av : option Availability),
    ObjectId_isValid (bookId req) = true ->
    connected w = true ->
    find_book (ObjectId_hex (bookId req)) (books w) = Some old ->
    cast_update (body req) = Some av ->
    let answer := serve (Complete.updateBook req) w in
    exists b' : Book,
      fst answer = mkRes 200 (Some (BookJson b'))
      /\ b_id b' = ObjectId_hex (bookId req)
      /\ forall req',
           ObjectId_isValid (bookId req') = true ->
           ObjectId_hex (bookId req') = ObjectId_hex (bookId req) ->
           fst (serve (Complete.getBookById req') (snd answer))
             = mkRes 200 (Some (BookJson b')).
Proof.
  intros req w old av Hok Hup Hold Hcast answer.
  set (b' := apply_update (body req) av (clock w) old).
  assert (b_id b' = ObjectId_hex (bookId req)) as Hid
    by exact (find_book_found _ _ _ Hold).
  assert (answer
          = (mkRes 200 (Some (BookJson b')),
             set_books (log_call (CallBookFindOneAndUpdate (bookId req)) w)
               (replace_book (ObjectId_hex (bookId req)) b' (books w)))) as ->.
  { subst answer. unfold Complete.updateBook, Book_findOneAndUpdate.
    rewrite Hok, Hcast. step_handler. rewrite Hup, Hold. reflexivity. }
  exists b'. cbn [fst snd]. split; [reflexivity | split; [exact Hid | ]].
  intros req' Hok' Hsame.
  unfold Complete.getBookById, Book_findById. rewrite Hok'.
  step_handler. rewrite Hup, Hsame, (find_book_replace _ _ _ _ Hold Hid).
  reflexivity.
Qed.

(* ------------------------------------------------------------------ *)
(** *** Accounts *)

(** X17.  A login with the email of a user and a password that bcrypt
    accepts against the stored digest is answered 200 with the email
    and a token for that user's [_id], good for three days from now;
    the login makes one store call and writes nothing. *)
Theorem loginUser_issues_token :
  forall (req : Req) (w : World) (e pw : string) (u : User),
    method req = POST ->
    path req = ["api"; "users"; "login"] ->
    connected w = true ->
    p_email (body req) = Some e ->
    find_user_by_email e (users w) = Some u ->
    p_password (body req) = Some pw ->
    bcrypt_compare pw (u_password u) = true ->
    serve (Complete.app Complete.bookControllers req) w
    = (mkRes 200
         (Some (AuthJson (Some e)
                  (jwt_sign (u_id u) (SECRET w) three_days (clock w)))),
       log_call (CallUserFindOneByEmail (Some e)) w).
Proof.
  intros req w e pw u Hm Hp Hup He Hu Hpw Hok.
  rewrite (route_login _ _ Hm Hp).
  unfold Complete.loginUser, User_findOne_by_email, compare,
    Complete.generateToken.
  cbn [body with_path]. rewrite He, Hpw. step_handler.
  rewrite Hup, Hu. simpl. rewrite Hok. reflexivity.
Qed.

(** Replaces a field known to be present by its text. *)
Ltac field_present H :=
  match type of H with
  | ~ absent_or_empty ?x =>
      let E := fresh "E" in
      let N := fresh "N" in
      destruct (present_spec x H) as (E & N & _);
      destruct x as [? | ]; [cbn [the or_else] in * | discriminate E];
      clear E H
  end.

(** The process after a signup that succeeds. *)
Lemma signupUser_success (req : Req) (w : World) (t : Z) :
  let b := body req in
  Forall (fun x => ~ absent_or_empty x) (required_fields b) ->
  connected w = true ->
  find_user_by_email (the (p_email b)) (users w) = None ->
  Date_parse (the (p_date_of_birth b)) = Some t ->
  snd (serve (Complete.signupUser req) w)
  = mkWorld
      (users w
       ++ [mkUser (ObjectId_fresh (oidCounter w)) (the (p_name b))
             (the (p_email b))
             (bcrypt_hash (the (p_password b))
                (bcrypt_genSalt 10 (saltCounter w)))
             (the (p_phone_number b)) (the (p_gender b)) t
             (the (p_membership_status b)) (clock w) (clock w)])
      (books w) (clock w) true (S (oidCounter w)) (S (saltCounter w))
      (SECRET w)
      (CallUserCreate :: CallUserFindOneByEmail (p_email b) :: journal w).
Proof.
  intros b Hall Hup Hfresh Hdate. subst b.
  pose proof (all_fields_present _ Hall) as Hnone.
  unfold required_fields in Hall.
  repeat match goal with
         | H : Forall _ (_ :: _) |- _ =>
             let Hx := fresh "Hx" in
             let Hr := fresh "Hr" in
             inversion H as [ | ? ? Hx Hr]; subst; clear H
         end.
  destruct req as [m pth a bid bd usr].
  destruct bd as [? ? ? ? ? ? ? nm em pw ph ge dob ms].
  cbn [body p_name p_email p_password p_phone_number p_gender
       p_date_of_birth p_membership_status] in *.
  field_present Hx. field_present Hx0. field_present Hx1.
  field_present Hx2. field_present Hx3. field_present Hx4.
  field_present Hx5.
  unfold Complete.signupUser, User_findOne_by_email, genSalt, hash,
    User_create, Complete.generateToken, User_validate.
  cbn [body p_name p_email p_password p_phone_number p_gender
       p_date_of_birth p_membership_status].
  rewrite Hnone. step_handler. rewrite Hup, Hfresh. simpl.
  rewrite !required_string_nonempty
    by (assumption || apply bcrypt_hash_nonempty).
  rewrite Hdate. simpl. rewrite Hfresh. reflexivity.
Qed.

(** X18.  After a signup that succeeded, the account is there: a login
    with the same email and password is answered 200 with a token for
    the new user, provided bcrypt accepts a password against its own
    digest; and a second signup with the same email, whatever its other
    fields, is answered 400 with "User already exists" and adds no
    user. *)
Theorem signupUser_then_login_and_again :
  forall (req : Req) (w : World) (t : Z),
    let b := body req in
    let salt := bcrypt_genSalt 10 (saltCounter w) in
    let _id := ObjectId_fresh (oidCounter w) in
    let after := snd (serve (Complete.signupUser req) w) in
    Forall (fun x => ~ absent_or_empty x) (required_fields b) ->
    connected w = true ->
    find_user_by_email (the (p_email b)) (users w) = None ->
    Date_parse (the (p_date_of_birth b)) = Some t ->
    (forall req',
       p_email (body req') = p_email b ->
       p_password (body req') = p_password b ->
       bcrypt_compare (the (p_password b))
         (bcrypt_hash (the (p_password b)) salt) = true ->
       fst (serve (Complete.loginUser req') after)
         = mkRes 200
             (Some (AuthJson (p_email b)
                      (jwt_sign _id (SECRET w) three_days (clock w)))))
    /\ (forall req',
          Forall (fun x => ~ absent_or_empty x) (required_fields (body req')) ->
          p_email (body req') = p_email b ->
          fst (serve (Complete.signupUser req') after)
            = mkRes 400 (Some (ErrorJson "User already exists"))
          /\ users (snd (serve (Complete.signupUser req') after))
             = users after).
Proof.
  intros req w t b salt _id after Hall Hup Hfresh Hdate.
  subst after. rewrite (signupUser_success req w t Hall Hup Hfresh Hdate).
  subst b salt _id.
  set (created := mkUser (ObjectId_fresh (oidCounter w)) _ _ _ _ _ _ _ _ _).
  pose proof (find_user_by_email_snoc (users w) created Hfresh) as Hfound.
  cbn [u_email created] in Hfound.
  inversion Hall as [ | ? ? _ Hrest]. inversion Hrest as [ | ? ? He Hrest'].
  inversion Hrest' as [ | ? ? Hpw _].
  destruct (present_spec _ He) as (Ee & _ & _).
  destruct (present_spec _ Hpw) as (Epw & _ & _).
  split.
  - intros req' Hsame_e Hsame_pw Hbcrypt.
    unfold Complete.loginUser, User_findOne_by_email, compare,
      Complete.generateToken.
    rewrite Hsame_e, Hsame_pw.
    destruct (p_email (body req)) as [e | ]; [ | discriminate Ee].
    destruct (p_password (body req)) as [pw | ]; [ | discriminate Epw].
    cbn [the or_else] in *. step_handler.
    rewrite Hfound. simpl. rewrite Hbcrypt. reflexivity.
  - intros req' Hall' Hsame_e.
    destruct (signupUser_steps req'
                (mkWorld (users w ++ [created]) (books w) (clock w) true
                   (S (oidCounter w)) (S (saltCounter w)) (SECRET w)
                   (CallUserCreate
                      :: CallUserFindOneByEmail (p_email (body req))
                      :: journal w)))
      as (_ & Hdup & _).
    apply (Hdup Hall' eq_refl created).
    rewrite Hsame_e. exact Hfound.
Qed.

(** X19.  What a store that cannot be reached looks like from outside.
    The book controllers answer 500 with their own message (for a fetch,
    an update and a delete: once the identifier has passed the check,
    and for an update once the payload has been cast); the signup, once
    all its fields are there, and the login answer 400.  Nothing is
    written. *)
Theorem store_down_is_500_for_books_400_for_users :
  forall (req : Req) (w : World),
    connected w = false ->
    fst (serve (Complete.getAllBooks req) w)
      = mkRes 500 (Some (MessageJson "Failed to retrieve books"))
    /\ (ObjectId_isValid (bookId req) = true ->
        fst (serve (Complete.getBookById req) w)
          = mkRes 500 (Some (MessageJson "Failed to retrieve book"))
        /\ fst (serve (Complete.updateBook req) w)
          = mkRes 500 (Some (MessageJson "Failed to update book"))
        /\ fst (serve (Complete.deleteBook req) w)
          = mkRes 500 (Some (MessageJson "Failed to delete book")))
    /\ fst (serve (Complete.createBook req) w)
      = mkRes 500 (Some (ErrorJson "Server Error"))
    /\ (Forall (fun x => ~ absent_or_empty x) (required_fields (body req)) ->
        statusCode (fst (serve (Complete.signupUser req) w)) = 400)
    /\ statusCode (fst (serve (Complete.loginUser req) w)) = 400
    /\ books (snd (serve (Complete.createBook req) w)) = books w
    /\ books (snd (serve (Complete.updateBook req) w)) = books w
    /\ books (snd (serve (Complete.deleteBook req) w)) = books w
    /\ users (snd (serve (Complete.signupUser req) w)) = users w.
Proof.
  intros req w Hdown.
  split; [ | split; [ | split; [ | split; [ | split; [ | split; [ | split;
    [ | split]]]]]]].
  - unfold Complete.getAllBooks, Book_find_sorted. step_handler.
    rewrite Hdown. reflexivity.
  - intro Hok.
    unfold Complete.getBookById, Complete.updateBook, Complete.deleteBook,
      Book_findById, Book_findOneAndUpdate, Book_findOneAndDelete.
    rewrite Hok. cbn [negb]. split; [ | split].
    + step_handler. rewrite Hdown. reflexivity.
    + destruct (cast_update (body req)); step_handler; rewrite ?Hdown;
        reflexivity.
    + step_handler. rewrite Hdown. reflexivity.
  - unfold Complete.createBook, Complete.req_user_id, Book_new, Book_save.
    branches; try reflexivity; congruence.
  - intro Hall. pose proof (all_fields_present _ Hall) as Hnone.
    unfold Complete.signupUser, User_findOne_by_email. cbv zeta.
    rewrite Hnone. step_handler. rewrite Hdown. reflexivity.
  - unfold Complete.loginUser, User_findOne_by_email. step_handler.
    rewrite Hdown. reflexivity.
  - unfold Complete.createBook, Complete.req_user_id, Book_new, Book_save.
    branches; try reflexivity; congruence.
  - unfold Complete.updateBook, Book_findOneAndUpdate.
    branches; try reflexivity; congruence.
  - unfold Complete.deleteBook, Book_findOneAndDelete.
    branches; try reflexivity; congruence.
  - unfold Complete.signupUser, User_findOne_by_email, genSalt, hash,
      User_create, Complete.generateToken.
    branches; try reflexivity; congruence.
Qed.

(* ------------------------------------------------------------------ *)
(** *** Behind the middleware *)

(** A token that verifies, with the store answering: the middleware
    hands over with whatever [findOne] found. *)
Lemma requireAuth_forwards (req : Req) (next : Handler) (w : World)
  (hdr : string) (c : Claims) :
  authorization req = Some hdr ->
  hdr <> "" ->
  jwt_verify (Complete.token_of hdr) (SECRET w) (clock w) = Returned c ->
  connected w = true ->
  ObjectId_isValid (claim_id c) = true ->
  Complete.requireAuth req next (mkSt w freshRes)
  = next (with_user req
            (option_map u_id (find_user_by_id (claim_id c) (users w))))
         (mkSt (log_call (CallUserFindOneById (claim_id c)) w) freshRes).
Proof.
  intros Ha Hne Hv Hup Hvalid. unfold Complete.requireAuth.
  rewrite Ha, (falsy_nonempty _ Hne). cbn [or_else].
  unfold verify, User_findOne_by_id. step_handler.
  rewrite Hv. simpl. rewrite Hvalid. step_handler. rewrite Hup. reflexivity.
Qed.

(** C3, as the code has it.  A request for /api/books/:bookId whose
    identifier is not a valid ObjectId is answered 400 "Invalid book
    ID" and the operation makes no store call: a GET leaves the process
    as it was, a PUT or DELETE that the middleware admits leaves it as
    the middleware's user lookup left it.  A valid identifier that,
    cast to an ObjectId, is the [_id] of no stored book is answered 404
    "Book not found" when the store answers (for a PUT, when the
    payload casts to the schema). *)
Theorem invalid_id_400_unknown_id_404 :
  forall (req : Req) (w : World) (id : string),
    path req = ["api"; "books"; id] ->
    let answer := serve (Complete.app Complete.bookControllers req) w in
    (ObjectId_isValid id = false ->
       (method req = GET ->
          answer = (mkRes 400 (Some (MessageJson "Invalid book ID")), w))
       /\ (forall c : Claims,
             method req = PUT \/ method req = DELETE ->
             admitted_with req w c ->
             answer
             = (mkRes 400 (Some (MessageJson "Invalid book ID")),
                log_call (CallUserFindOneById (claim_id c)) w)))
    /\ (ObjectId_isValid id = true ->
        connected w = true ->
        find_book (ObjectId_hex id) (books w) = None ->
        (method req = GET ->
           fst answer = mkRes 404 (Some (MessageJson "Book not found")))
        /\ (forall c : Claims,
              admitted_with req w c ->
              (method req = PUT ->
                 cast_update (body req) <> None ->
                 fst answer = mkRes 404 (Some (MessageJson "Book not found")))
              /\ (method req = DELETE ->
                  fst answer
                  = mkRes 404 (Some (MessageJson "Book not found"))))).
Proof.
  intros req w id Hp answer. subst answer.
  rewrite (route_books _ _ _ Hp).
  assert (forall c : Claims,
             method req = PUT \/ method req = DELETE ->
             admitted_with req w c ->
             serve (Complete.bookRouter Complete.bookControllers
                      (with_path req [id]) unknownEndpoint) w
             = serve (match method req with
                      | PUT => Complete.updateBook
                      | _ => Complete.deleteBook
                      end
                        (with_bookId
                           (with_user (with_path req [id])
                              (option_map u_id
                                 (find_user_by_id (claim_id c) (users w))))
                           id))
                 (log_call (CallUserFindOneById (claim_id c)) w)) as Hin.
  { intros c Hm (hdr & Ha & Hne & Hv & Hup & Hvalid).
    assert (public_route (with_path req [id]) = false) as Hroute
      by (unfold public_route; cbn [method path with_path];
          destruct Hm as [-> | ->]; reflexivity).
    rewrite (bookRouter_protected _ _ _ Hroute). unfold serve.
    rewrite (requireAuth_forwards (with_path req [id]) _ w hdr c Ha Hne Hv
               Hup Hvalid).
    cbn [method path with_user with_path].
    destruct Hm as [-> | ->]; reflexivity. }
  split.
  - intro Hbad. split.
    + intro Hm. unfold Complete.bookRouter.
      cbn [method path with_path]. rewrite Hm.
      cbn [ctl_getBookById Complete.bookControllers].
      apply (proj1 (controllers_check_the_id_first _ w)). exact Hbad.
    + intros c Hm Hadm. rewrite (Hin c Hm Hadm).
      destruct Hm as [-> | ->].
      * apply (proj1 (controllers_check_the_id_first _ _)). exact Hbad.
      * apply (proj1 (controllers_check_the_id_first _ _)). exact Hbad.
  - intros Hok Hup Hnone. split.
    + intro Hm. unfold Complete.bookRouter.
      cbn [method path with_path]. rewrite Hm.
      cbn [ctl_getBookById Complete.bookControllers].
      apply (proj2 (controllers_check_the_id_first _ w)); assumption.
    + intros c Hadm. split.
      * intros Hm Hcast. rewrite (Hin c (or_introl Hm) Hadm), Hm.
        apply (proj2 (controllers_check_the_id_first _ _)); assumption.
      * intro Hm. rewrite (Hin c (or_intror Hm) Hadm), Hm.
        apply (proj2 (controllers_check_the_id_first _ _)); assumption.
Qed.

(* ------------------------------------------------------------------ *)
(** *** Whose book it is *)

(** X20.  Nothing ties a book to the user who may change it.  A DELETE
    with the token of any user the store knows removes the book and is
    answered 204, whoever the book's [user_id] names: neither the
    middleware nor [deleteBook] compares [req.user] with the owner. *)
Theorem any_user_may_delete_any_book :
  forall (req : Req) (w : World) (hdr id : string) (c : Claims)
         (u : User) (b : Book),
    method req = DELETE ->
    path req = ["api"; "books"; id] ->
    authorization req = Some hdr ->
    hdr <> "" ->
    jwt_verify (Complete.token_of hdr) (SECRET w) (clock w) = Returned c ->
    connected w = true ->
    ObjectId_isValid (claim_id c) = true ->
    find_user_by_id (claim_id c) (users w) = Some u ->
    ObjectId_isValid id = true ->
    find_book (ObjectId_hex id) (books w) = Some b ->
    let answer := serve (Complete.app Complete.bookControllers req) w in
    fst answer = mkRes 204 (Some NoContent)
    /\ books (snd answer) = remove_book (ObjectId_hex id) (books w).
Proof.
  intros req w hdr id c u b Hm Hp Ha Hne Hv Hup Hvalid Hu Hid Hb answer.
  subst answer. rewrite (route_books _ _ _ Hp).
  assert (public_route (with_path req [id]) = false) as Hroute
    by (unfold public_route; cbn [method path with_path]; rewrite Hm;
        reflexivity).
  rewrite (bookRouter_protected _ _ _ Hroute). unfold serve.
  rewrite (requireAuth_forwards (with_path req [id]) _ w hdr c Ha Hne Hv
             Hup Hvalid).
  cbn [method path with_user with_path]. rewrite Hm.
  cbn [ctl_deleteBook Complete.bookControllers].
  unfold Complete.deleteBook, Book_findOneAndDelete.
  cbn [bookId with_bookId]. rewrite Hid. step_handler.
  rewrite Hup, Hb. split; reflexivity.
Qed.

(* ------------------------------------------------------------------ *)
(** *** The collection of books over time *)

Lemma Book_validate_stamp (id : string) (b : Body) (now : Z) (bk : Book) :
  Book_validate id b now = Some bk -> b_id bk = id /\ createdAt bk = now.
Proof.
  unfold Book_validate. intro H.
  repeat match type of H with
         | match ?x with _ => _ end = _ => destruct x; try discriminate
         | (if ?x then _ else _) = _ => destruct x; try discriminate
         end.
  injection H as <-. split; reflexivity.
Qed.

Lemma sort_newest_last_in (l : list Book) (b : Book) :
  Forall (fun x => createdAt x < createdAt b) l ->
  sort_createdAt_desc (l ++ [b]) = b :: sort_createdAt_desc l.
Proof.
  induction 1 as [ | x r Hx Hr IH]; cbn [app sort_createdAt_desc].
  - reflexivity.
  - rewrite IH. cbn [insert_desc].
    assert ((createdAt b <=? createdAt x) = false) as ->
      by (apply Z.leb_gt; exact Hx).
    reflexivity.
Qed.

Lemma NoDup_remove_book (id : string) (l : list Book) :
  NoDup (map b_id l) -> NoDup (map b_id (remove_book id l)).
Proof.
  induction l as [ | x r IH]; cbn [remove_book map]; intro H.
  - exact H.
  - inversion H as [ | ? ? Hx Hr]; subst.
    destruct (String.eqb (b_id x) id) eqn:E; [exact Hr | ].
    cbn [map]. constructor; [ | exact (IH Hr)].
    intro Hin. apply Hx.
    clear - Hin. induction r as [ | y r IHr]; cbn [remove_book map] in *.
    + exact Hin.
    + destruct (String.eqb (b_id y) id).
      * right. exact Hin.
      * destruct Hin as [Hin | Hin]; [left; exact Hin | right; exact (IHr Hin)].
Qed.

(** X21.  The newest book comes first.  When [createBook] answers 201
    with a book whose [createdAt] is later than that of every book the
    collection held, the listing right after starts with that book, and
    the rest of it is the books the collection held, newest first. *)
Theorem createBook_then_listed_first :
  forall (req req' : Req) (w : World) (b : Book),
    fst (serve (Complete.createBook req) w) = mkRes 201 (Some (BookJson b)) ->
    Forall (fun x => createdAt x < createdAt b) (books w) ->
    exists rest : list Book,
      fst (serve (Complete.getAllBooks req')
             (snd (serve (Complete.createBook req) w)))
      = mkRes 200 (Some (BooksJson (b :: rest)))
      /\ Permutation (books w) rest
      /\ StronglySorted newer_or_same rest.
Proof.
  intros req req' w b Hcreated Hold.
  exists (sort_createdAt_desc (books w)).
  split; [ | split; [apply sort_createdAt_desc_perm
                    | apply sort_createdAt_desc_sorted]].
  revert Hcreated.
  unfold Complete.createBook, Complete.req_user_id, Book_new, Book_save.
  branches; intro Hcreated; try discriminate Hcreated.
  injection Hcreated as ->.
  unfold Complete.getAllBooks, Book_find_sorted. step_handler.
  rewrite (sort_newest_last_in _ _ Hold). reflexivity.
Qed.

(** X22.  Identifiers of books stay unique.  If no two stored books
    share an [_id], none do after an update or a delete, whatever the
    request and its outcome, and none do after a create as long as the
    ObjectId the generator hands out is not already in the
    collection. *)
Theorem book_ids_stay_unique :
  forall (req : Req) (w : World),
    NoDup (book_ids w) ->
    NoDup (book_ids (snd (serve (Complete.updateBook req) w)))
    /\ NoDup (book_ids (snd (serve (Complete.deleteBook req) w)))
    /\ (~ In (ObjectId_fresh (oidCounter w)) (book_ids w) ->
        NoDup (book_ids (snd (serve (Complete.createBook req) w)))).
Proof.
  intros req w Hnodup. unfold book_ids in *. split; [ | split].
  - unfold Complete.updateBook, Book_findOneAndUpdate.
    branches; try exact Hnodup.
    all: match goal with
         | H : find_book _ _ = Some ?old
           |- NoDup (map b_id (replace_book _ ?b' _)) =>
             rewrite (map_replace_book _ b_id _ _ old b' H eq_refl);
             exact Hnodup
         end.
  - unfold Complete.deleteBook, Book_findOneAndDelete.
    branches; try exact Hnodup.
    all: apply NoDup_remove_book; exact Hnodup.
  - intro Hfresh.
    unfold Complete.createBook, Complete.req_user_id, Book_new, Book_save.
    branches; try exact Hnodup.
    all: match goal with
         | H : Book_validate _ _ _ = Some ?b |- _ =>
             destruct (Book_validate_stamp _ _ _ _ H) as [Hid _];
             rewrite map_app; apply NoDup_snoc; [exact Hnodup | ];
             cbn [map]; rewrite Hid; exact Hfresh
         end.
Qed.

End Behaviour.

Import Scenario.

#[local] Existing Instance Bench.platform.

(* ------------------------------------------------------------------ *)
(** *** The bench platform keeps the laws *)

Lemma dec_enc_pos (p : positive) (r : string) :
  Bench.dec_pos (Bench.enc_pos p ++ r) = Some (p, r).
Proof.
  induction p as [q IH | q IH | ]; simpl; try rewrite IH; reflexivity.
Qed.

Lemma dec_enc_Z (z : Z) (r : string) :
  Bench.dec_Z (Bench.enc_Z z ++ r) = Some (z, r).
Proof.
  destruct z as [ | p | p]; simpl; try rewrite dec_enc_pos; reflexivity.
Qed.

Lemma take_length_app (a r : string) :
  Bench.take (String.length a) (a ++ r) = Some (a, r).
Proof.
  induction a as [ | c a IH]; simpl; try rewrite IH; reflexivity.
Qed.

Lemma parse_serialize (j : Jwt) : Bench.parse (Bench.serialize j) = Some j.
Proof.
  destruct j as [[id i e] sig]. unfold Bench.parse, Bench.serialize.
  cbn [claims signature iat exp claim_id].
  rewrite dec_enc_Z, dec_enc_Z, dec_enc_Z, Nat2Z.id, take_length_app.
  reflexivity.
Qed.

Lemma serialize_nonempty (j : Jwt) : Bench.serialize j <> "".
Proof.
  unfold Bench.serialize. destruct (iat (claims j)); discriminate.
Qed.

Lemma bench_laws : PlatformLaws Bench.platform.
Proof.
  constructor.
  - exact parse_serialize.
  - exact serialize_nonempty.
  - intros password salt. discriminate.
Qed.

(* ------------------------------------------------------------------ *)
(** *** The properties on the scenario *)

(** Settles the next conjunct, a fact about the scenario, by evaluation
    or from the context. *)
Ltac given := split; [first [assumption | reflexivity] | ].

Lemma getAllBooks_newest_first_at_work :
  connected library = true
  /\ serve (Complete.app Complete.bookControllers
              (request GET ["api"; "books"] None emptyBody)) library
     = (mkRes 200 (Some (BooksJson [dune; emma; gatsby])),
        log_call CallBookFind library).
Proof.
  given.
  exact (proj1 (getAllBooks_newest_first
                  (request GET ["api"; "books"] None emptyBody) library
                  eq_refl eq_refl eq_refl)).
Defined.

Lemma ann_is_admitted (m : Method) (p : list string) (b : Body) :
  admitted_with (request m p (bearer ann_token) b) library ann_claims.
Proof.
  exists ("Bearer " ++ ann_token).
  split; [reflexivity | split; [discriminate | ]].
  split; [reflexivity | split; reflexivity].
Qed.

Lemma invalid_id_400_unknown_id_404_at_work :
  (ObjectId_isValid "42" = false
   /\ serve (Complete.app Complete.bookControllers
               (request GET ["api"; "books"; "42"] None emptyBody)) library
      = (mkRes 400 (Some (MessageJson "Invalid book ID")), library)
   /\ admitted_with
        (request DELETE ["api"; "books"; "42"] (bearer ann_token) emptyBody)
        library ann_claims
   /\ serve (Complete.app Complete.bookControllers
               (request DELETE ["api"; "books"; "42"] (bearer ann_token)
                  emptyBody)) library
      = (mkRes 400 (Some (MessageJson "Invalid book ID")),
         log_call (CallUserFindOneById ann_id) library))
  /\ (ObjectId_isValid mallory_id = true
      /\ connected library = true
      /\ find_book (ObjectId_hex mallory_id) (books library) = None
      /\ cast_update title_only <> None
      /\ fst (serve (Complete.app Complete.bookControllers
                       (request GET ["api"; "books"; mallory_id] None
                          emptyBody)) library)
         = mkRes 404 (Some (MessageJson "Book not found"))
      /\ fst (serve (Complete.app Complete.bookControllers
                       (request PUT ["api"; "books"; mallory_id]
                          (bearer ann_token) title_only)) library)
         = mkRes 404 (Some (MessageJson "Book not found"))
      /\ fst (serve (Complete.app Complete.bookControllers
                       (request DELETE ["api"; "books"; mallory_id]
                          (bearer ann_token) emptyBody)) library)
         = mkRes 404 (Some (MessageJson "Book not found"))).
Proof.
  assert (cast_update title_only <> None) as Hcast
    by (vm_compute; discriminate).
  split.
  - given. split; [ | split].
    + exact (proj1 (proj1 (invalid_id_400_unknown_id_404
               (request GET ["api"; "books"; "42"] None emptyBody)
               library "42" eq_refl) eq_refl) eq_refl).
    + apply ann_is_admitted.
    + exact (proj2 (proj1 (invalid_id_400_unknown_id_404
               (request DELETE ["api"; "books"; "42"] (bearer ann_token)
                  emptyBody)
               library "42" eq_refl) eq_refl)
               ann_claims (or_intror eq_refl) (ann_is_admitted _ _ _)).
  - do 4 given. split; [ | split].
    + exact (proj1 (proj2 (invalid_id_400_unknown_id_404
               (request GET ["api"; "books"; mallory_id] None emptyBody)
               library mallory_id eq_refl) eq_refl eq_refl eq_refl) eq_refl).
    + exact (proj1 (proj2 (proj2 (invalid_id_400_unknown_id_404
               (request PUT ["api"; "books"; mallory_id] (bearer ann_token)
                  title_only)
               library mallory_id eq_refl) eq_refl eq_refl eq_refl)
               ann_claims (ann_is_admitted _ _ _)) eq_refl Hcast).
    + exact (proj2 (proj2 (proj2 (invalid_id_400_unknown_id_404
               (request DELETE ["api"; "books"; mallory_id]
                  (bearer ann_token) emptyBody)
               library mallory_id eq_refl) eq_refl eq_refl eq_refl)
               ann_claims (ann_is_admitted _ _ _)) eq_refl).
Defined.

(** C3, as stated, fails for the two operations behind the middleware.
    A DELETE of an identifier that is no ObjectId is answered 401 when
    it carries no token, and with Ann's token it is answered 400 only
    after the store was asked for the user of the token: the request
    did make a store call. *)
Lemma invalid_id_behind_the_middleware :
  ObjectId_isValid "42" = false
  /\ fst (serve (Complete.app Complete.bookControllers
                   (request DELETE ["api"; "books"; "42"] None emptyBody))
            library)
     = mkRes 401 (Some (ErrorJson "Authorization token required"))
  /\ fst (serve (Complete.app Complete.bookControllers
                   (request DELETE ["api"; "books"; "42"] (bearer ann_token)
                      emptyBody)) library)
     = mkRes 400 (Some (MessageJson "Invalid book ID"))
  /\ journal library = []
  /\ journal
       (snd (serve (Complete.app Complete.bookControllers
                      (request DELETE ["api"; "books"; "42"]
                         (bearer ann_token) emptyBody)) library))
     = [CallUserFindOneById ann_id].
Proof.
  do 4 given. reflexivity.
Qed.

Lemma all_present (b : Body) :
  forallb truthy (required_fields b) = true ->
  Forall (fun x => ~ absent_or_empty x) (required_fields b).
Proof.
  intro H. rewrite forallb_forall in H. apply Forall_forall.
  intros x Hin Habs. apply falsy_spec in Habs.
  unfold falsy in Habs. rewrite (H x Hin) in Habs. discriminate.
Qed.

Lemma signupUser_contract_at_work :
  (Exists absent_or_empty (required_fields signup_without_phone)
   /\ serve (Complete.app Complete.bookControllers
               (request POST ["api"; "users"; "signup"] None
                  signup_without_phone)) library
      = (mkRes 400 (Some (ErrorJson "Please add all fields")), library))
  /\ (Forall (fun x => ~ absent_or_empty x) (required_fields signup_ann_again)
      /\ connected library = true
      /\ find_user_by_email "ann@example.com" (users library) = Some ann
      /\ fst (serve (Complete.app Complete.bookControllers
                       (request POST ["api"; "users"; "signup"] None
                          signup_ann_again)) library)
         = mkRes 400 (Some (ErrorJson "User already exists")))
  /\ (Forall (fun x => ~ absent_or_empty x) (required_fields signup_bob)
      /\ find_user_by_email "bob@example.com" (users library) = None
      /\ Date_parse "652147200000" = Some 652147200000
      /\ users (snd (serve (Complete.app Complete.bookControllers
                              (request POST ["api"; "users"; "signup"] None
                                 signup_bob)) library))
         = [ann; bob]).
Proof.
  split; [ | split].
  - assert (Exists absent_or_empty (required_fields signup_without_phone))
      as Hmiss.
    { unfold required_fields. do 3 apply Exists_cons_tl.
      apply Exists_cons_hd. left. reflexivity. }
    given.
    exact (proj1 (signupUser_contract (L := bench_laws)
                    (request POST ["api"; "users"; "signup"] None
                       signup_without_phone) library eq_refl eq_refl)
             Hmiss).
  - pose proof (all_present signup_ann_again eq_refl) as Hall.
    do 3 given.
    exact (proj1 (proj1 (proj2 (signupUser_contract (L := bench_laws)
             (request POST ["api"; "users"; "signup"] None signup_ann_again)
             library eq_refl eq_refl))
             Hall eq_refl ann eq_refl)).
  - pose proof (all_present signup_bob eq_refl) as Hall.
    do 3 given.
    exact (proj2 (proj2 (proj2 (signupUser_contract (L := bench_laws)
             (request POST ["api"; "users"; "signup"] None signup_bob)
             library eq_refl eq_refl))
             Hall eq_refl eq_refl 652147200000 eq_refl)).
Defined.

Lemma loginUser_failures_look_alike_at_work :
  find_user_by_email "nobody@example.com" (users library) = None
  /\ find_user_by_email "ann@example.com" (users library) = Some ann
  /\ bcrypt_compare "wrongpassword" (u_password ann) = false
  /\ fst (serve (Complete.app Complete.bookControllers
                   (request POST ["api"; "users"; "login"] None
                      (login "nobody@example.com" "secret123"))) library)
     = mkRes 400 (Some (ErrorJson "Invalid credentials"))
  /\ fst (serve (Complete.app Complete.bookControllers
                   (request POST ["api"; "users"; "login"] None
                      (login "ann@example.com" "wrongpassword"))) library)
     = fst (serve (Complete.app Complete.bookControllers
                     (request POST ["api"; "users"; "login"] None
                        (login "nobody@example.com" "secret123"))) library).
Proof.
  do 3 given.
  refine (loginUser_failures_look_alike
            (request POST ["api"; "users"; "login"] None
               (login "nobody@example.com" "secret123"))
            (request POST ["api"; "users"; "login"] None
               (login "ann@example.com" "wrongpassword"))
            library library "ann@example.com" "wrongpassword" ann
            eq_refl eq_refl eq_refl eq_refl eq_refl eq_refl _
            eq_refl eq_refl eq_refl eq_refl).
  intros e1 H. injection H as <-. reflexivity.
Defined.

Lemma createBook_owner_is_caller_at_work :
  "Bearer " ++ ann_token <> ""
  /\ jwt_verify (Complete.token_of ("Bearer " ++ ann_token))
       (SECRET library) (clock library) = Returned ann_claims
  /\ find_user_by_id ann_id (users library) = Some ann
  /\ p_user_id gatsby_payload = Some mallory_id
  /\ fst (serve (Complete.app Complete.bookControllers
                   (request POST ["api"; "books"] (bearer ann_token)
                      gatsby_payload)) library)
     = mkRes 201 (Some (BookJson second_gatsby))
  /\ user_id second_gatsby = ann_id.
Proof.
  assert ("Bearer " ++ ann_token <> "") as Hne by discriminate.
  do 4 given.
  pose proof (createBook_owner_is_caller
                (request POST ["api"; "books"] (bearer ann_token)
                   gatsby_payload)
                library ("Bearer " ++ ann_token) ann_claims ann second_gatsby
                eq_refl eq_refl eq_refl Hne eq_refl eq_refl eq_refl eq_refl)
    as (Hanswer & _ & Howner & _).
  split; [exact Hanswer | exact Howner].
Defined.

Lemma updateBook_sets_payload_keys_at_work :
  ObjectId_isValid gatsby_id_upper = true
  /\ find_book (ObjectId_hex gatsby_id_upper) (books library) = Some gatsby
  /\ cast_update title_only = Some None
  /\ exists b' : Book,
       fst (serve (Complete.updateBook
                     (request_for PUT gatsby_id_upper title_only)) library)
       = mkRes 200 (Some (BookJson b'))
       /\ b_id b' = gatsby_id
       /\ createdAt b' = createdAt gatsby
       /\ updatedAt b' = clock library
       /\ title b' = "Gatsby, revised"
       /\ author b' = author gatsby
       /\ availability b' = availability gatsby.
Proof.
  do 3 given.
  pose proof (updateBook_sets_payload_keys
                (request_for PUT gatsby_id_upper title_only) library gatsby
                None eq_refl eq_refl eq_refl eq_refl)
    as (b' & Hanswer & _ & Hid & Hcreated & Hupdated & Htitle & Hauthor
        & _ & _ & _ & _ & Hkept & _).
  exists b'.
  split; [exact Hanswer | split; [exact Hid | split; [exact Hcreated | ]]].
  split; [exact Hupdated | split; [exact Htitle | split; [exact Hauthor | ]]].
  exact (Hkept eq_refl).
Defined.

Lemma generateToken_three_days_at_work :
  ann_token = jwt_sign ann_id (SECRET library) three_days (clock library)
  /\ 86400000 / 1000 < exp ann_claims
  /\ exists j : Jwt,
       jwt_parse ann_token = Some j
       /\ claim_id (claims j) = ann_id
       /\ exp (claims j) = 5 + 259200
       /\ jwt_verify (Some ann_token) (SECRET library) 86400000
          = Returned (claims j).
Proof.
  do 2 given.
  pose proof (generateToken_three_days (L := bench_laws) ann_id library
                freshRes)
    as (_ & j & Hparse & Hid & _ & Hexp & _ & Hgood & _).
  exists j. do 3 given.
  apply Hgood. rewrite Hexp. reflexivity.
Defined.

Lemma requireAuth_rejects_missing_header_at_work :
  protected_request (request DELETE ["api"; "books"; gatsby_id] None emptyBody)
  /\ absent_or_empty
       (authorization
          (request DELETE ["api"; "books"; gatsby_id] None emptyBody))
  /\ serve (Complete.app Complete.bookControllers
              (request DELETE ["api"; "books"; gatsby_id] None emptyBody))
       library
     = (mkRes 401 (Some (ErrorJson "Authorization token required")), library).
Proof.
  assert (protected_request
            (request DELETE ["api"; "books"; gatsby_id] None emptyBody))
    as Hroute.
  { right. right. split; [reflexivity | ]. exists gatsby_id. reflexivity. }
  assert (absent_or_empty
            (authorization
               (request DELETE ["api"; "books"; gatsby_id] None emptyBody)))
    as Habsent by (left; reflexivity).
  do 2 given.
  exact (requireAuth_rejects_missing_header Complete.bookControllers
           (request DELETE ["api"; "books"; gatsby_id] None emptyBody)
           library Hroute Habsent).
Defined.

(** C1, as stated, fails: an Authorization header that names the scheme
    and carries no credential is not answered "Authorization token
    required".  The middleware goes on to verify a token that is not there
    and answers "Request is not authorized". *)
Lemma scheme_without_credential_is_not_authorized :
  protected_request
    (request PUT ["api"; "books"; gatsby_id] (Some "Bearer") title_only)
  /\ carries_bearer_credential (Some "Bearer") = false
  /\ serve (Complete.app Complete.bookControllers
              (request PUT ["api"; "books"; gatsby_id] (Some "Bearer")
                 title_only)) library
     = (mkRes 401 (Some (ErrorJson "Request is not authorized")), library)
  /\ fst (serve (Complete.app Complete.bookControllers
                   (request PUT ["api"; "books"; gatsby_id] (Some "Bearer")
                      title_only)) library)
     <> mkRes 401 (Some (ErrorJson "Authorization token required")).
Proof.
  split.
  - right. left. split; [reflexivity | ]. exists gatsby_id. reflexivity.
  - do 2 given. vm_compute. discriminate.
Qed.

(** C8, as stated, fails: after an update whose payload holds a title
    and nothing else, the record answered and stored still has the
    author, the ISBN, the publisher, the genre and the availability it
    had; the payload did not replace the document. *)
Lemma updateBook_keeps_absent_keys :
  serve (Complete.updateBook (request_for PUT gatsby_id title_only)) library
  = (mkRes 200 (Some (BookJson revised_gatsby)),
     set_books (log_call (CallBookFindOneAndUpdate gatsby_id) library)
               [revised_gatsby; dune; emma])
  /\ p_author title_only = None
  /\ author revised_gatsby = author gatsby
  /\ ~ replaced_by_payload title_only revised_gatsby.
Proof.
  do 3 given. intros (_ & H & _). discriminate H.
Qed.

(** C5 at its failing input.  A login that sends an email and no
    password tells an email that a user has from one that nobody has.
    For Ann's email [bcrypt.compare] throws on the missing password and
    the [catch] sends that message; for an unknown email the answer is
    "Invalid credentials".  Both are 400, the messages differ. *)
Theorem loginUser_without_password_tells_known_email :
  find_user_by_email "ann@example.com" (users library) = Some ann
  /\ find_user_by_email "nobody@example.com" (users library) = None
  /\ serve (Complete.app Complete.bookControllers
              (request POST ["api"; "users"; "login"] None
                 (login_without_password "ann@example.com"))) library
     = (mkRes 400 (Some (ErrorJson "Illegal arguments: undefined, string")),
        log_call (CallUserFindOneByEmail (Some "ann@example.com")) library)
  /\ serve (Complete.app Complete.bookControllers
              (request POST ["api"; "users"; "login"] None
                 (login_without_password "nobody@example.com"))) library
     = (mkRes 400 (Some (ErrorJson "Invalid credentials")),
        log_call (CallUserFindOneByEmail (Some "nobody@example.com"))
          library).
Proof.
  do 3 given. reflexivity.
Qed.

(** C6 at its failing input.  Ann's token is still within its three
    days and her record is gone from the store.  The middleware does not
    answer 401: it forwards, and the DELETE removes the book; the same
    token on a POST reaches [createBook], which fails on [req.user._id]
    and answers 500. *)
Theorem requireAuth_forwards_unknown_user :
  find_user_by_id ann_id (users orphaned) = None
  /\ jwt_verify (Some ann_token) (SECRET orphaned) (clock orphaned)
     = Returned ann_claims
  /\ serve (Complete.app Complete.bookControllers
              (request DELETE ["api"; "books"; gatsby_id] (bearer ann_token)
                 emptyBody)) orphaned
     = (mkRes 204 (Some NoContent),
        set_books
          (log_call (CallBookFindOneAndDelete gatsby_id)
             (log_call (CallUserFindOneById ann_id) orphaned))
          [dune; emma])
  /\ fst (serve (Complete.app Complete.bookControllers
                   (request POST ["api"; "books"] (bearer ann_token)
                      gatsby_payload)) orphaned)
     = mkRes 500 (Some (ErrorJson "Server Error")).
Proof.
  do 3 given. reflexivity.
Qed.

(* ------------------------------------------------------------------ *)
(** *** The further behaviour on the scenario *)

Lemma starter_app_serves_placeholders_at_work :
  path (request POST ["api"; "books"] None gatsby_payload) = ["api"; "books"]
  /\ method (request POST ["api"; "books"] None gatsby_payload) = POST
  /\ serve (Starter.app Starter.bookControllers
              (request POST ["api"; "books"] None gatsby_payload)) library
     = (mkRes 200 (Some (Text "createBook")), library).
Proof.
  do 2 given.
  exact (proj2 (proj1 (starter_app_serves_placeholders
                         (request POST ["api"; "books"] None gatsby_payload)
                         library "") eq_refl) eq_refl).
Defined.

Lemma token_of_pieces_at_work :
  has_no_space "Basic" = true
  /\ has_no_space ann_token = true
  /\ Complete.token_of "Basic" = None
  /\ Complete.token_of ("Basic " ++ ann_token) = Some ann_token.
Proof.
  do 2 given.
  pose proof (token_of_pieces "Basic" ann_token "" eq_refl eq_refl)
    as (Hnone & Hsome & _).
  split; [exact Hnone | exact Hsome].
Defined.

Lemma bookRouter_guards_all_but_public_at_work :
  public_route (request PATCH [gatsby_id] None title_only) = false
  /\ absent_or_empty (authorization (request PATCH [gatsby_id] None title_only))
  /\ serve (Complete.bookRouter Complete.bookControllers
              (request PATCH [gatsby_id] None title_only) unknownEndpoint)
       library
     = (mkRes 401 (Some (ErrorJson "Authorization token required")), library).
Proof.
  assert (absent_or_empty
            (authorization (request PATCH [gatsby_id] None title_only)))
    as Habsent by (left; reflexivity).
  do 2 given.
  exact (bookRouter_guards_all_but_public Complete.bookControllers
           (request PATCH [gatsby_id] None title_only) unknownEndpoint
           library eq_refl Habsent).
Defined.

Lemma public_routes_ignore_authorization_at_work :
  public_route (request GET [gatsby_id] None emptyBody) = true
  /\ serve (Complete.bookRouter Complete.bookControllers
              (request GET [gatsby_id] (Some "Bearer forged") emptyBody)
              unknownEndpoint) library
     = serve (Complete.bookRouter Complete.bookControllers
                (request GET [gatsby_id] None emptyBody) unknownEndpoint)
         library.
Proof.
  given.
  exact (public_routes_ignore_authorization
           (request GET [gatsby_id] None emptyBody) unknownEndpoint library
           (Some "Bearer forged") eq_refl).
Defined.

Lemma requireAuth_reads_second_piece_only_at_work :
  Complete.token_of ("Basic " ++ ann_token)
  = Complete.token_of ("Bearer " ++ ann_token)
  /\ serve (Complete.requireAuth
              (request DELETE [] (Some ("Basic " ++ ann_token)) emptyBody)
              Complete.deleteBook) library
     = serve (Complete.requireAuth
                (request DELETE [] (Some ("Bearer " ++ ann_token)) emptyBody)
                Complete.deleteBook) library.
Proof.
  given.
  refine (requireAuth_reads_second_piece_only
            (request DELETE [] None emptyBody) Complete.deleteBook library
            ("Basic " ++ ann_token) ("Bearer " ++ ann_token) _ _ eq_refl _).
  - discriminate.
  - discriminate.
  - intros r h. reflexivity.
Defined.

Lemma requireAuth_store_down_is_401_at_work :
  connected offline = false
  /\ jwt_verify (Complete.token_of ("Bearer " ++ ann_token))
       (SECRET offline) (clock offline) = Returned ann_claims
  /\ fst (serve (Complete.bookRouter Complete.bookControllers
                   (request DELETE [gatsby_id] (bearer ann_token) emptyBody)
                   unknownEndpoint) offline)
     = mkRes 401 (Some (ErrorJson "Request is not authorized")).
Proof.
  assert ("Bearer " ++ ann_token <> "") as Hne by discriminate.
  do 2 given.
  exact (proj1 (requireAuth_store_down_is_401 Complete.bookControllers
                  (request DELETE [gatsby_id] (bearer ann_token) emptyBody)
                  unknownEndpoint offline ("Bearer " ++ ann_token) ann_claims
                  eq_refl eq_refl Hne eq_refl eq_refl)).
Defined.

Lemma requireAuth_refuses_old_and_foreign_tokens_at_work :
  SECRET four_days_later = SECRET library
  /\ clock library / 1000 + 259200 <= clock four_days_later / 1000
  /\ serve (Complete.requireAuth
              (request DELETE [gatsby_id] (bearer ann_token) emptyBody)
              Complete.deleteBook) four_days_later
     = (mkRes 401 (Some (ErrorJson "Request is not authorized")),
        four_days_later).
Proof.
  assert ("Bearer " ++ ann_token <> "") as Hne by discriminate.
  assert (clock library / 1000 + 259200 <= clock four_days_later / 1000)
    as Hlate by (vm_compute; discriminate).
  do 2 given.
  exact (requireAuth_refuses_old_and_foreign_tokens (L := bench_laws)
           (request DELETE [gatsby_id] (bearer ann_token) emptyBody)
           Complete.deleteBook library four_days_later ann_id
           ("Bearer " ++ ann_token) eq_refl Hne eq_refl
           (or_introl (conj eq_refl Hlate))).
Defined.

Lemma requireAuth_admits_issued_token_at_work :
  Complete.token_of ("Bearer " ++ ann_token) = Some ann_token
  /\ find_user_by_id ann_id (users library) = Some ann
  /\ Complete.requireAuth
       (request DELETE [gatsby_id] (bearer ann_token) emptyBody)
       Complete.deleteBook (mkSt library freshRes)
     = Complete.deleteBook
         (with_user (request DELETE [gatsby_id] (bearer ann_token) emptyBody)
            (Some ann_id))
         (mkSt (log_call (CallUserFindOneById ann_id) library) freshRes).
Proof.
  assert ("Bearer " ++ ann_token <> "") as Hne by discriminate.
  do 2 given.
  exact (requireAuth_admits_issued_token (L := bench_laws)
           (request DELETE [gatsby_id] (bearer ann_token) emptyBody)
           Complete.deleteBook library library ("Bearer " ++ ann_token) ann
           eq_refl Hne eq_refl eq_refl eq_refl eq_refl eq_refl eq_refl).
Defined.

Lemma signupUser_keeps_emails_unique_at_work :
  NoDup (emails library)
  /\ NoDup (emails (snd (serve (Complete.signupUser
                                  (request POST [] None signup_bob))
                           library))).
Proof.
  assert (NoDup (emails library)) as Hnodup.
  { repeat constructor. intros []. }
  given.
  exact (signupUser_keeps_emails_unique
           (request POST [] None signup_bob) library Hnodup).
Defined.

Lemma deleteBook_then_not_found_at_work :
  find_book (ObjectId_hex gatsby_id) (books library) = Some gatsby
  /\ NoDup (book_ids library)
  /\ ObjectId_isValid gatsby_id_upper = true
  /\ ObjectId_hex gatsby_id_upper = ObjectId_hex gatsby_id
  /\ fst (serve (Complete.deleteBook (request_for DELETE gatsby_id emptyBody))
            library)
     = mkRes 204 (Some NoContent)
  /\ fst (serve (Complete.getBookById
                   (request_for GET gatsby_id_upper emptyBody))
            (snd (serve (Complete.deleteBook
                           (request_for DELETE gatsby_id emptyBody)) library)))
     = mkRes 404 (Some (MessageJson "Book not found")).
Proof.
  assert (NoDup (book_ids library)) as Hnodup.
  { repeat constructor; cbn; intuition discriminate. }
  do 4 given.
  pose proof (deleteBook_then_not_found
                (request_for DELETE gatsby_id emptyBody) library gatsby
                eq_refl eq_refl eq_refl Hnodup)
    as (Hgone & _ & _ & Hafter).
  split; [exact Hgone | ].
  exact (proj1 (Hafter (request_for GET gatsby_id_upper emptyBody)
                  eq_refl eq_refl)).
Defined.

Lemma createBook_then_fetch_at_work :
  Book_validate (ObjectId_fresh (oidCounter library))
    (spread_with_user_id gatsby_payload ann_id) (clock library)
  = Some second_gatsby
  /\ find_book (b_id second_gatsby) (books library) = None
  /\ ObjectId_isValid (b_id second_gatsby) = true
  /\ ObjectId_hex (b_id second_gatsby) = b_id second_gatsby
  /\ fst (serve (Complete.getBookById
                   (request_for GET (b_id second_gatsby) emptyBody))
            (snd (serve (Complete.createBook (from_ann gatsby_payload))
                    library)))
     = mkRes 200 (Some (BookJson second_gatsby)).
Proof.
  do 4 given.
  exact (proj2 (createBook_then_fetch (from_ann gatsby_payload) library
                  ann_id second_gatsby eq_refl eq_refl eq_refl eq_refl)
           (request_for GET (b_id second_gatsby) emptyBody) eq_refl eq_refl).
Defined.

Lemma updateBook_then_fetch_at_work :
  find_book (ObjectId_hex gatsby_id) (books library) = Some gatsby
  /\ cast_update title_only = Some None
  /\ ObjectId_isValid gatsby_id_upper = true
  /\ ObjectId_hex gatsby_id_upper = ObjectId_hex gatsby_id
  /\ exists b' : Book,
       fst (serve (Complete.updateBook (request_for PUT gatsby_id title_only))
              library)
       = mkRes 200 (Some (BookJson b'))
       /\ fst (serve (Complete.getBookById
                        (request_for GET gatsby_id_upper emptyBody))
                 (snd (serve (Complete.updateBook
                                (request_for PUT gatsby_id title_only))
                         library)))
          = mkRes 200 (Some (BookJson b')).
Proof.
  do 4 given.
  pose proof (updateBook_then_fetch (request_for PUT gatsby_id title_only)
                library gatsby None eq_refl eq_refl eq_refl eq_refl)
    as (b' & Hanswer & _ & Hfetch).
  exists b'. split; [exact Hanswer | ].
  exact (Hfetch (request_for GET gatsby_id_upper emptyBody) eq_refl eq_refl).
Defined.

Lemma loginUser_issues_token_at_work :
  find_user_by_email "ann@example.com" (users library) = Some ann
  /\ bcrypt_compare "secret123" (u_password ann) = true
  /\ serve (Complete.app Complete.bookControllers
              (request POST ["api"; "users"; "login"] None
                 (login "ann@example.com" "secret123"))) library
     = (mkRes 200 (Some (AuthJson (Some "ann@example.com") ann_token)),
        log_call (CallUserFindOneByEmail (Some "ann@example.com")) library).
Proof.
  do 2 given.
  exact (loginUser_issues_token
           (request POST ["api"; "users"; "login"] None
              (login "ann@example.com" "secret123"))
           library "ann@example.com" "secret123" ann
           eq_refl eq_refl eq_refl eq_refl eq_refl eq_refl eq_refl).
Defined.

Lemma signupUser_then_login_and_again_at_work :
  Forall (fun x => ~ absent_or_empty x) (required_fields signup_bob)
  /\ find_user_by_email "bob@example.com" (users library) = None
  /\ bcrypt_compare "hunter22" (bcrypt_hash "hunter22" "0001") = true
  /\ statusCode
       (fst (serve (Complete.loginUser
                      (request POST [] None
                         (login "bob@example.com" "hunter22")))
               (snd (serve (Complete.signupUser
                              (request POST [] None signup_bob)) library))))
     = 200
  /\ fst (serve (Complete.signupUser (request POST [] None signup_bob))
            (snd (serve (Complete.signupUser
                           (request POST [] None signup_bob)) library)))
     = mkRes 400 (Some (ErrorJson "User already exists")).
Proof.
  pose proof (all_present signup_bob eq_refl) as Hall.
  do 3 given.
  pose proof (signupUser_then_login_and_again (L := bench_laws)
                (request POST [] None signup_bob) library 652147200000
                Hall eq_refl eq_refl eq_refl)
    as [Hlogin Hagain].
  split.
  - rewrite (Hlogin (request POST [] None
                       (login "bob@example.com" "hunter22"))
               eq_refl eq_refl eq_refl).
    reflexivity.
  - exact (proj1 (Hagain (request POST [] None signup_bob) Hall eq_refl)).
Defined.

Lemma store_down_is_500_for_books_400_for_users_at_work :
  connected offline = false
  /\ fst (serve (Complete.getAllBooks (request GET [] None emptyBody)) offline)
     = mkRes 500 (Some (MessageJson "Failed to retrieve books"))
  /\ statusCode
       (fst (serve (Complete.loginUser
                      (request POST [] None
                         (login "ann@example.com" "secret123"))) offline))
     = 400.
Proof.
  given.
  pose proof (store_down_is_500_for_books_400_for_users
                (request POST [] None (login "ann@example.com" "secret123"))
                offline eq_refl)
    as (Hlist & _ & _ & _ & Hlogin & _).
  split; [exact Hlist | exact Hlogin].
Defined.

Lemma any_user_may_delete_any_book_at_work :
  find_user_by_id cleo_id (users reading_room) = Some cleo
  /\ find_book (ObjectId_hex gatsby_id) (books reading_room) = Some gatsby
  /\ user_id gatsby <> u_id cleo
  /\ fst (serve (Complete.app Complete.bookControllers
                   (request DELETE ["api"; "books"; gatsby_id]
                      (bearer cleo_token) emptyBody)) reading_room)
     = mkRes 204 (Some NoContent)
  /\ books (snd (serve (Complete.app Complete.bookControllers
                          (request DELETE ["api"; "books"; gatsby_id]
                             (bearer cleo_token) emptyBody)) reading_room))
     = [dune; emma].
Proof.
  assert ("Bearer " ++ cleo_token <> "") as Hne by discriminate.
  assert (user_id gatsby <> u_id cleo) as Hother by discriminate.
  do 3 given.
  exact (any_user_may_delete_any_book
           (request DELETE ["api"; "books"; gatsby_id] (bearer cleo_token)
              emptyBody)
           reading_room ("Bearer " ++ cleo_token) gatsby_id cleo_claims
           cleo gatsby
           eq_refl eq_refl eq_refl Hne eq_refl eq_refl eq_refl eq_refl
           eq_refl eq_refl).
Defined.

Lemma createBook_then_listed_first_at_work :
  fst (serve (Complete.createBook (from_ann gatsby_payload)) library)
  = mkRes 201 (Some (BookJson second_gatsby))
  /\ Forall (fun x => createdAt x < createdAt second_gatsby) (books library)
  /\ exists rest : list Book,
       fst (serve (Complete.getAllBooks (request GET [] None emptyBody))
              (snd (serve (Complete.createBook (from_ann gatsby_payload))
                      library)))
       = mkRes 200 (Some (BooksJson (second_gatsby :: rest)))
       /\ Permutation (books library) rest.
Proof.
  assert (Forall (fun x => createdAt x < createdAt second_gatsby)
            (books library))
    as Hold by (repeat constructor).
  do 2 given.
  pose proof (createBook_then_listed_first (from_ann gatsby_payload)
                (request GET [] None emptyBody) library second_gatsby
                eq_refl Hold)
    as (rest & Hlisted & Hperm & _).
  exists rest. split; [exact Hlisted | exact Hperm].
Defined.

Lemma book_ids_stay_unique_at_work :
  NoDup (book_ids library)
  /\ ~ In (ObjectId_fresh (oidCounter library)) (book_ids library)
  /\ NoDup (book_ids (snd (serve (Complete.deleteBook
                                    (request_for DELETE gatsby_id emptyBody))
                             library)))
  /\ NoDup (book_ids (snd (serve (Complete.createBook
                                    (from_ann gatsby_payload)) library))).
Proof.
  assert (NoDup (book_ids library)) as Hnodup.
  { repeat constructor; cbn; intuition discriminate. }
  assert (~ In (ObjectId_fresh (oidCounter library)) (book_ids library))
    as Hfresh.
  { cbn. intuition discriminate. }
  do 2 given.
  split.
  - exact (proj1 (proj2 (book_ids_stay_unique
                           (request_for DELETE gatsby_id emptyBody) library
                           Hnodup))).
  - exact (proj2 (proj2 (book_ids_stay_unique (from_ann gatsby_payload)
                           library Hnodup)) Hfresh).
Defined.
